(** * youtube-upload: the command-line driver [youtube_upload/main.py]

    A shallow embedding of [main.py] (Python 2) and the properties of its
    upload orchestration: title templating, tag splitting, category lookup,
    progress reporting, the exception to exit-code table and the sequential
    upload loop.

    Python byte strings are [string]; [None] is [None] of an [option];
    integers are [Z] or [nat]; the command's effects (standard output, the
    authentication call, the vendor upload call, the progress bar) are
    recorded as events in a log threaded through a state and error monad. *)

From Stdlib Require Import ZArith Lia Bool Ascii String List.
From Stdlib Require Import Decimal DecimalString DecimalNat.
From stdpp Require Import base option list strings gmap.

Open Scope string_scope.

(** ** Python built-ins used by [main.py] *)

Module Py.

(** [x or d] on an optional string: [None] and [""] are falsy. *)
Definition truthy (o : option string) : bool :=
  match o with
  | Some s => negb (String.eqb s "")
  | None => false
  end.

Definition or_else (o : option string) (d : string) : string :=
  match o with
  | Some s => if String.eqb s "" then d else s
  | None => d
  end.

(** [s.split(sep)] for a one-character separator: empty pieces are kept. *)
Fixpoint split (sep : ascii) (s : string) : list string :=
  match s with
  | "" => [""]
  | String c rest =>
      if Ascii.eqb c sep then "" :: split sep rest
      else match split sep rest with
           | [] => [String c ""]
           | w :: ws => String c w :: ws
           end
  end.

(** Number of occurrences of a character. *)
Fixpoint count (c : ascii) (s : string) : nat :=
  match s with
  | "" => 0
  | String a rest => (if Ascii.eqb a c then 1 else 0) + count c rest
  end.

(** [str.strip]: the whitespace of a byte string is tab, line feed,
    vertical tab, form feed, carriage return and space. *)
Definition is_space : ascii -> bool := Ascii.is_space.

Fixpoint lstrip (s : string) : string :=
  match s with
  | "" => ""
  | String c rest => if is_space c then lstrip rest else s
  end.

Fixpoint rstrip (s : string) : string :=
  match s with
  | "" => ""
  | String c rest =>
      match rstrip rest with
      | "" => if is_space c then "" else String c ""
      | r => String c r
      end
  end.

Definition strip (s : string) : string := rstrip (lstrip s).

(** [str(n)] for a non-negative integer. *)
Definition str_of_nat (n : nat) : string :=
  NilZero.string_of_uint (Nat.to_uint n).

(** Whether [float(z)] succeeds: an integer converts, rounding to the
    nearest double, unless that is beyond the largest one; from
    [2**1024 - 2**970] on the conversion raises [OverflowError]. *)
Definition fits_float (z : Z) : bool :=
  (Z.abs z <? 2 ^ 1024 - 2 ^ 970)%Z.
Arguments fits_float : simpl never.

(** [sep.join(l)] *)
Fixpoint join (sep : string) (l : list string) : string :=
  match l with
  | [] => ""
  | [x] => x
  | x :: rest => x ++ sep ++ join sep rest
  end.

(** [posixpath.join] of two components. *)
Definition ends_with_slash (s : string) : bool :=
  match String.rev s with
  | String "/" _ => true
  | _ => false
  end.

Definition path_join (a b : string) : string :=
  match b with
  | String "/" _ => b
  | _ => if String.eqb a "" || ends_with_slash a then a ++ b
         else a ++ "/" ++ b
  end.

End Py.

(** ** Exceptions and results *)

(** The exception classes that [main.py] defines (lines 36-38), the ones its
    [EXIT_CODES] table names, the built-in ones its own expressions raise,
    and any other class, by name, for the collaborators. *)
Inductive exn_class :=
| OptionsMissing
| InvalidCategory
| AuthenticationError
| FlowExchangeError
| AccessTokenCredentialsError
| NotImplementedError
| ValueError
| ZeroDivisionError
| OverflowError
| OtherException (name : string).

#[global] Instance exn_class_eq_dec : EqDecision exn_class.
Proof. solve_decision. Defined.

Record exception := Exception { exc_class : exn_class; exc_message : string }.

Inductive outcome (A : Type) :=
| Ok (a : A)
| Raise (e : exception).
Arguments Ok {A} a.
Arguments Raise {A} e.

Definition raised {A} (r : outcome A) : option exn_class :=
  match r with
  | Ok _ => None
  | Raise e => Some (exc_class e)
  end.

(** ** [str.format] with the keyword arguments of line 95 *)

(** [ns = dict(title=title, n=index+1, total=total_videos)] *)
Record namespace := Namespace { ns_title : string; ns_n : nat; ns_total : nat }.

Inductive format_mode :=
| Literal
| Field (depth : nat) (text : string).

Definition is_lbrace (c : ascii) : bool := Ascii.eqb c "{".
Definition is_rbrace (c : ascii) : bool := Ascii.eqb c "}".

Definition snoc (s : string) (c : ascii) : string := s ++ String c "".

Section Format.

(** A replacement field other than the plain names [title], [n] and
    [total] (a conversion, a format specification, an attribute or index
    lookup, a positional or unknown name) is rendered, or refused, by
    Python's formatter; that rendering is a parameter of the model. *)
Variable format_other_field : string -> namespace -> outcome string.

Definition render_field (ns : namespace) (text : string) : outcome string :=
  if String.eqb text "title" then Ok (ns_title ns)
  else if String.eqb text "n" then Ok (Py.str_of_nat (ns_n ns))
  else if String.eqb text "total" then Ok (Py.str_of_nat (ns_total ns))
  else format_other_field text ns.

Definition emit (c : ascii) (r : outcome string) : outcome string :=
  match r with
  | Ok s => Ok (String c s)
  | Raise e => Raise e
  end.

Definition emit_str (v : string) (r : outcome string) : outcome string :=
  match r with
  | Ok s => Ok (v ++ s)
  | Raise e => Raise e
  end.

(** The scanner of the formatter: literal text with [{{] and [}}] for a
    brace, and replacement fields delimited by matching braces. *)
Fixpoint format_go (ns : namespace) (mode : format_mode) (s : string)
  : outcome string :=
  match s with
  | "" =>
      match mode with
      | Literal => Ok ""
      | Field _ _ => Raise (Exception ValueError "unmatched '{' in format")
      end
  | String c rest =>
      match mode with
      | Literal =>
          if is_lbrace c then
            match rest with
            | "" => Raise (Exception ValueError
                             "Single '{' encountered in format string")
            | String c' rest' =>
                if is_lbrace c' then emit c (format_go ns Literal rest')
                else format_go ns (Field 0 "") rest
            end
          else if is_rbrace c then
            match rest with
            | "" => Raise (Exception ValueError
                             "Single '}' encountered in format string")
            | String c' rest' =>
                if is_rbrace c' then emit c (format_go ns Literal rest')
                else Raise (Exception ValueError
                              "Single '}' encountered in format string")
            end
          else emit c (format_go ns Literal rest)
      | Field depth text =>
          if is_lbrace c then format_go ns (Field (S depth) (snoc text c)) rest
          else if is_rbrace c then
            match depth with
            | O =>
                match render_field ns text with
                | Ok v => emit_str v (format_go ns Literal rest)
                | Raise e => Raise e
                end
            | S depth' => format_go ns (Field depth' (snoc text c)) rest
            end
          else format_go ns (Field depth (snoc text c)) rest
      end
  end.

Definition format (template : string) (ns : namespace) : outcome string :=
  format_go ns Literal template.

End Format.

(** ** The title template as the specification words it

    The template with [{title}], [{n}] and [{total}] replaced, reading left
    to right, by the title, the 1-based index and the batch size. *)

Fixpoint substitute_go (title : string) (n total : nat) (skip : nat)
    (s : string) : string :=
  match s with
  | "" => ""
  | String c rest =>
      match skip with
      | S k => substitute_go title n total k rest
      | O =>
          if String.prefix "{title}" s
          then title ++ substitute_go title n total 6 rest
          else if String.prefix "{n}" s
          then Py.str_of_nat n ++ substitute_go title n total 2 rest
          else if String.prefix "{total}" s
          then Py.str_of_nat total ++ substitute_go title n total 6 rest
          else String c (substitute_go title n total 0 rest)
      end
  end.

Definition substitute_placeholders (template title : string) (n total : nat)
  : string :=
  substitute_go title n total 0 template.

(** ** Data model *)

(** The parsed command line (lines 166-195); an option that was not given is
    [None], the flag [--auth-browser] is a boolean. *)
Record options := Options {
  title : option string;
  category : option string;
  description : option string;
  tags : option string;
  privacy : string;
  location : option string;
  title_template : string;
  progress_type : string;
  ca_certs_file : option string;
  access_token : option string;
  client_secrets : option string;
  credentials_file : option string;
  auth_browser : bool
}.

(** The defaults that [main] gives the parser. *)
Definition default_options : options :=
  {| title := None; category := None; description := None; tags := None;
     privacy := "public"; location := None;
     title_template := "{title} [{n}/{total}]";
     progress_type := "progress";
     ca_certs_file := None; access_token := None; client_secrets := None;
     credentials_file := None; auth_browser := false |}.

(** [getattr(options, name)] for the string options. *)
Definition getattr (o : options) (name : string) : option string :=
  if String.eqb name "title" then title o
  else if String.eqb name "category" then category o
  else if String.eqb name "description" then description o
  else if String.eqb name "tags" then tags o
  else if String.eqb name "location" then location o
  else None.

(** The request body of lines 100-113. *)
Record snippet := Snippet {
  snippet_title : string;
  snippet_tags : list string;
  snippet_description : string;
  snippet_categoryId : option string
}.

Record request_body := RequestBody {
  body_snippet : snippet;
  status_privacyStatus : string;
  recordingDetails_location : option (gmap string string)
}.

Inductive code_callback := BrowserGetCode | ConsoleGetCode.

(** The arguments of [youtube_upload.auth.get_resource] (lines 144-145). *)
Record auth_request := AuthRequest {
  req_client_secrets : string;
  req_credentials : string;
  req_get_code_callback : code_callback;
  req_access_token : option string;
  req_ca_certs_file : option string
}.

Inductive stream := Stdout | Stream (name : string).

(** Calls into the [progressbar] library on the bar that
    [get_progress_info] creates. *)
Inductive bar_method :=
| BarStart (maxval : Z)
| BarUpdate (value : Z)
| BarFinish.

(** What a run does to the outside, in order. *)
Inductive event :=
| PrintUsage
| GetResource (request : auth_request)
| Write (f : stream) (s : string)
| Flush (f : stream)
| Upload (path : string) (body : request_body)
| ProgressCallback (total_size completed : Z)
| ProgressBarCall (c : bar_method)
| ProgressFinish.

(** The three reporters that [get_progress_info] builds. *)
Inductive progress_info :=
| BarProgress
| ConsoleProgress
| NoProgress.

(** What one vendor upload does: the status reports of the chunks, then a
    video identifier or an exception. *)
Record upload_run := UploadRun {
  reports : list (Z * Z);
  response : outcome string
}.

(** ** The exit-code table (lines 40-47) *)

Definition EXIT_CODES : list (exn_class * Z) :=
  [ (OptionsMissing, 2);
    (InvalidCategory, 3);
    (AuthenticationError, 4);
    (FlowExchangeError, 4);
    (AccessTokenCredentialsError, 5);
    (NotImplementedError, 6) ]%Z.

(** [exit_codes[cls]] *)
Fixpoint dict_get (exit_codes : list (exn_class * Z)) (cls : exn_class)
  : option Z :=
  match exit_codes with
  | [] => None
  | (k, v) :: rest => if decide (k = cls) then Some v else dict_get rest cls
  end.

Definition WATCH_VIDEO_URL (id : string) : string :=
  "https://www.youtube.com/watch?v=" ++ id.

Definition newline : string := String "010" "".

(** ** The program *)

Section Program.

(** The file system, the network and the platform. *)
Variable World : Type.
(** The authenticated API resource. *)
Variable Youtube : Type.

(** The collaborators of [main.py]: the modules it imports ([lib],
    [categories], [auth], [progressbar]), Python's codecs and the process
    environment. They are parameters of the model. *)
Record environment := Environment {
  (** [lib.to_utf8] *)
  to_utf8 : string -> string;
  (** [s.decode("string-escape")] *)
  string_escape_decode : string -> outcome string;
  (** replacement fields of [str.format] beyond the three plain names *)
  format_other_field : string -> namespace -> outcome string;
  (** [lib.string_to_dict] *)
  string_to_dict : option string -> outcome (option (gmap string string));
  (** [youtube_upload.categories.IDS] *)
  IDS : gmap string nat;
  (** whether [import progressbar] succeeded (lines 31-34) *)
  progressbar : bool;
  (** a call into the progress bar: it may raise *)
  progressbar_call : bar_method -> World -> option exception * World;
  (** what [hasattr(bar, "next_update")] answers for a bar that
      [progressbar.ProgressBar] has just built, and for one whose [start]
      has returned: both depend on the version of the library *)
  new_bar_has_next_update : bool;
  started_bar_has_next_update : bool;
  (** the line ['{0:0.0f} %\n'.format(round(completed * 100.0 / total_size))]
      once both numbers are floats and [total_size] is not zero; the text
      of the rounded quotient is not modelled *)
  format_percent : Z -> Z -> string;
  (** [os.path.expanduser("~")] and [sys.prefix] *)
  home : string;
  sys_prefix : string;
  (** [lib.get_first_existing_filename] *)
  get_first_existing_filename : list string -> string -> World -> option string;
  (** [youtube_upload.auth.get_resource] *)
  get_resource : auth_request -> World -> outcome (option Youtube) * World;
  (** the transfer behind [youtube_upload.upload_video.upload] *)
  upload : Youtube -> string -> request_body -> World -> upload_run * World
}.

Variable env : environment.

(** The progress bar object shared by the callback and [finish]:
    [hasattr(bar, "next_update")] and [bar.maxval]. *)
Record progress_bar := ProgressBar {
  has_next_update : bool;
  maxval : option Z
}.

Record state := State {
  world : World;
  log : list event;
  bar : progress_bar
}.

(** State and exceptions. *)
Definition M (A : Type) : Type := state -> outcome A * state.

#[global] Instance M_ret : MRet M := fun A (a : A) st => (Ok a, st).

#[global] Instance M_bind : MBind M := fun A B (f : A -> M B) (m : M A) st =>
  match m st with
  | (Ok a, st') => f a st'
  | (Raise e, st') => (Raise e, st')
  end.

Definition raise {A} (e : exception) : M A := fun st => (Raise e, st).

Definition lift {A} (r : outcome A) : M A := fun st => (r, st).

Definition emit_event (e : event) : M unit := fun st =>
  (Ok tt, {| world := world st; log := log st ++ [e]; bar := bar st |}).

Definition get_bar : M progress_bar := fun st => (Ok (bar st), st).

Definition set_bar (b : progress_bar) : M unit := fun st =>
  (Ok tt, {| world := world st; log := log st; bar := b |}).

Definition read_world {A} (f : World -> A) : M A := fun st =>
  (Ok (f (world st)), st).

Definition write (f : stream) (s : string) : M unit := emit_event (Write f s).
Definition flush (f : stream) : M unit := emit_event (Flush f).

(** A call into the progress bar library. *)
Definition bar_call (c : bar_method) : M unit := fun st =>
  let '(r, w) := progressbar_call env c (world st) in
  let st' := {| world := w; log := log st ++ [ProgressBarCall c];
                bar := bar st |} in
  match r with
  | None => (Ok tt, st')
  | Some e => (Raise e, st')
  end.

(** *** [get_progress_info] (lines 54-78) *)

Definition get_progress_info (progress_type : string) : M progress_info :=
  if String.eqb progress_type "progressbar" && progressbar env then
    set_bar {| has_next_update := new_bar_has_next_update env;
               maxval := None |};;
    mret BarProgress
  else if String.eqb progress_type "console" then mret ConsoleProgress
  else mret NoProgress.

(** [_callback] of the bar (lines 66-70) *)
Definition bar_callback (total_size completed : Z) : M unit :=
  b ← get_bar;
  (if has_next_update b then mret tt
   else
     set_bar {| has_next_update := false; maxval := Some total_size |};;
     bar_call (BarStart total_size);;
     set_bar {| has_next_update := started_bar_has_next_update env;
                maxval := Some total_size |});;
  bar_call (BarUpdate completed).

(** [_callback] of the console (lines 73-75). [completed * 100.0] makes a
    float of [completed], and the division one of [total_size]: each
    raises [OverflowError] for an integer beyond the floats; then the
    division raises for a zero [total_size]. *)
Definition console_callback (total_size completed : Z) : M unit :=
  if negb (Py.fits_float completed)
  then raise (Exception OverflowError
                "long int too large to convert to float")
  else if negb (Py.fits_float total_size)
  then raise (Exception OverflowError
                "long int too large to convert to float")
  else if (total_size =? 0)%Z
  then raise (Exception ZeroDivisionError "float division by zero")
  else
    write Stdout (format_percent env total_size completed);;
    flush Stdout.

(** The [callback] field: [None] for the third reporter. *)
Definition callback (p : progress_info) : option (Z -> Z -> M unit) :=
  match p with
  | BarProgress => Some bar_callback
  | ConsoleProgress => Some console_callback
  | NoProgress => None
  end.

(** The [finish] field, invoked: [bar.finish] or [lambda: True]. *)
Definition finish (p : progress_info) : M unit :=
  emit_event ProgressFinish;;
  match p with
  | BarProgress => bar_call BarFinish
  | ConsoleProgress => mret tt
  | NoProgress => mret tt
  end.

(** *** [get_category_id] (lines 81-88) *)

Definition get_category_id (category : option string)
  : outcome (option string) :=
  if Py.truthy category then
    let name := Py.or_else category "" in
    match IDS env !! name with
    | Some id => Ok (Some (Py.str_of_nat id))
    | None =>
        Raise (Exception InvalidCategory (name ++ " is not a valid category"))
    end
  else Ok None.

(** *** [upload_video] (lines 91-120) *)

(** The callback on each status report of a transfer, in order; an
    exception of the callback ends the transfer. *)
Fixpoint run_callbacks (cb : Z -> Z -> M unit) (rs : list (Z * Z)) : M unit :=
  match rs with
  | [] => mret tt
  | (total_size, completed) :: rest =>
      emit_event (ProgressCallback total_size completed);;
      cb total_size completed;;
      run_callbacks cb rest
  end.

(** Modelled from the spec: the vendor upload call,
    [youtube_upload.upload_video.upload], is not among the sources. It
    submits the file and the request body, invokes the progress callback,
    when there is one, with [(total_size, completed)] for each status
    report of the transfer, and returns the video identifier or raises. *)
Definition vendor_upload (youtube : Youtube) (path : string)
    (body : request_body) (progress_callback : option (Z -> Z -> M unit))
  : M string :=
  emit_event (Upload path body);;
  run ← (fun st =>
           let '(r, w) := upload env youtube path body (world st) in
           (Ok r, {| world := w; log := log st; bar := bar st |}));
  match progress_callback with
  | Some cb => run_callbacks cb (reports run)
  | None => mret tt
  end;;
  lift (response run).

(** Lines 93-97. The caller, [run_main], has checked that the title is
    set. *)
Definition complete_title (options : options) (total_videos index : nat)
  : outcome string :=
  let title := to_utf8 env (Py.or_else (title options) "") in
  let ns := {| ns_title := title; ns_n := index + 1;
               ns_total := total_videos |} in
  if (1 <? total_videos)%nat
  then format (format_other_field env) (title_template options) ns
  else Ok title.

(** Line 103 *)
Definition tag_list (tags : option string) : list string :=
  map Py.strip (Py.split "," (Py.or_else tags "")).

Definition upload_video (youtube : Youtube) (options : options)
    (video_path : string) (total_videos index : nat) : M string :=
  description ← lift (string_escape_decode env
                        (to_utf8 env (Py.or_else (description options) "")));
  complete_title ← lift (complete_title options total_videos index);
  progress ← get_progress_info (progress_type options);
  category_id ← lift (get_category_id (category options));
  location ← lift (string_to_dict env (location options));
  let request_body :=
    {| body_snippet :=
         {| snippet_title := complete_title;
            snippet_tags := tag_list (tags options);
            snippet_description := description;
            snippet_categoryId := category_id |};
       status_privacyStatus := privacy options;
       recordingDetails_location := location |} in
  write Stdout ("Start upload: " ++ video_path ++ " (" ++ complete_title
                ++ ")" ++ newline);;
  flush Stdout;;
  video_id ← vendor_upload youtube video_path request_body (callback progress);
  finish progress;;
  mret video_id.

(** Lines 115-120 on their own, once the request body is built. *)
Definition transfer (youtube : Youtube) (video_path : string)
    (body : request_body) (p : progress_info) : M string :=
  write Stdout ("Start upload: " ++ video_path ++ " ("
                ++ snippet_title (body_snippet body) ++ ")" ++ newline);;
  flush Stdout;;
  video_id ← vendor_upload youtube video_path body (callback p);
  finish p;;
  mret video_id.

(** *** [run_main] (lines 123-155) *)

(** The loop of lines 148-152 over [enumerate(args)]. *)
Fixpoint upload_loop (youtube : Youtube) (options : options)
    (output : stream) (total_videos index : nat) (paths : list string)
  : M unit :=
  match paths with
  | [] => mret tt
  | video_path :: rest =>
      video_id ← upload_video youtube options video_path total_videos index;
      let video_url := WATCH_VIDEO_URL video_id in
      write output ("Video URL " ++ video_url ++ newline);;
      flush output;;
      upload_loop youtube options output total_videos (S index) rest
  end.

Definition required_options : list string := ["title"].

Definition missing_options (options : options) : list string :=
  List.filter (fun opt => negb (Py.truthy (getattr options opt)))
              required_options.

Definition auth_request_of (options : options)
    (default_client_secrets : option string) : auth_request :=
  let default_credentials :=
    Py.path_join (home env) ".youtube-upload-credentials.json" in
  {| req_client_secrets :=
       Py.or_else (client_secrets options)
         (Py.or_else default_client_secrets
            (Py.path_join (home env) ".client_secrets.json"));
     req_credentials :=
       Py.or_else (credentials_file options) default_credentials;
     req_get_code_callback :=
       if auth_browser options then BrowserGetCode else ConsoleGetCode;
     req_access_token := access_token options;
     req_ca_certs_file :=
       if Py.truthy (ca_certs_file options) then ca_certs_file options
       else None |}.

Definition get_resource_call (request : auth_request)
  : M (option Youtube) := fun st =>
  let '(r, w) := get_resource env request (world st) in
  (r, {| world := w; log := log st ++ [GetResource request];
         bar := bar st |}).

(** The request of lines 131-145 in a given world. *)
Definition first_request (options : options) (w : World) : auth_request :=
  auth_request_of options
    (get_first_existing_filename env
       [sys_prefix env; Py.path_join (sys_prefix env) "local"]
       "share/youtube_upload/client_secrets.json" w).

Definition run_main (output : stream) (options : options)
    (args : list string) : M unit :=
  let missing := missing_options options in
  match missing with
  | _ :: _ =>
      emit_event PrintUsage;;
      raise (Exception OptionsMissing
               ("Some required option are missing: "
                ++ Py.join ", " missing))
  | [] =>
      default_client_secrets ←
        read_world (get_first_existing_filename env
                      [sys_prefix env; Py.path_join (sys_prefix env) "local"]
                      "share/youtube_upload/client_secrets.json");
      youtube ← get_resource_call
                  (auth_request_of options default_client_secrets);
      match youtube with
      | Some y => upload_loop y options output (length args) 0 args
      | None =>
          raise (Exception AuthenticationError "Cannot get youtube resource")
      end
  end.

(** [main] after the option parser: [run_main(parser, options, args)]
    with the default [output]. *)
Definition main (options : options) (args : list string) : M unit :=
  run_main Stdout options args.

(** *** The process exit status (line 201) *)

(** Modelled from the spec: [lib.catch_exceptions] is not among the
    sources. It runs the function; the exit code is 0 when it returns, the
    table's entry for the class of the exception it raises, and a default
    non-zero code for a class that the table does not list. *)
Definition catch_exceptions (default_code : Z)
    (exit_codes : list (exn_class * Z)) (r : outcome unit) : Z :=
  match r with
  | Ok _ => 0
  | Raise e =>
      match dict_get exit_codes (exc_class e) with
      | Some code => code
      | None => default_code
      end
  end.

Definition exit_code (default_code : Z) (options : options)
    (args : list string) (st : state) : Z :=
  catch_exceptions default_code EXIT_CODES (fst (main options args st)).

(** *** Reading a log *)

Definition upload_of (e : event) : option (string * request_body) :=
  match e with
  | Upload path body => Some (path, body)
  | _ => None
  end.

(** The vendor uploads of a log, in order. *)
Definition uploads (l : list event) : list (string * request_body) :=
  omap upload_of l.

Definition is_finish (e : event) : bool :=
  match e with ProgressFinish => true | _ => false end.

Definition is_callback (e : event) : bool :=
  match e with ProgressCallback _ _ => true | _ => false end.

Definition is_upload (e : event) : bool :=
  match e with Upload _ _ => true | _ => false end.

(** Events of a transfer in progress: callbacks and what they do. *)
Definition transfer_event (e : event) : bool :=
  match e with
  | ProgressCallback _ _ => true
  | ProgressBarCall (BarStart _) => true
  | ProgressBarCall (BarUpdate _) => true
  | Write Stdout _ => true
  | Flush Stdout => true
  | _ => false
  end.

(** What [finish] itself does after it is invoked. *)
Definition closing_event (e : event) : bool :=
  match e with
  | ProgressBarCall BarFinish => true
  | _ => false
  end.

(** The log of one [upload_video] up to the vendor call. *)
Definition start_events (video_path : string) (body : request_body)
  : list event :=
  [ Write Stdout ("Start upload: " ++ video_path ++ " ("
                  ++ snippet_title (body_snippet body) ++ ")" ++ newline);
    Flush Stdout;
    Upload video_path body ].

(** The request body that [upload_video] builds for the video at [index]
    of a batch of [total_videos]. *)
Definition body_for (options : options) (total_videos index : nat)
    (body : request_body) : Prop :=
  complete_title options total_videos index
    = Ok (snippet_title (body_snippet body))
  /\ snippet_tags (body_snippet body) = tag_list (tags options)
  /\ get_category_id (category options)
     = Ok (snippet_categoryId (body_snippet body))
  /\ status_privacyStatus body = privacy options.

(** A computation only appends to the log; [Q] relates its result to what
    it appends. *)
Definition grows {A} (m : M A) (Q : outcome A -> list event -> Prop) : Prop :=
  forall st, exists l : list event, log (snd (m st)) = (log st ++ l)%list /\ Q (fst (m st)) l.

(** What the loop uploads: a prefix of the files, in order, each with the
    body built for its index. *)
Definition loop_uploads (options : options) (total_videos index : nat)
    (paths : list string) (r : outcome unit) (l : list event) : Prop :=
  (length (uploads l) <= length paths)%nat
  /\ (r = Ok tt -> length (uploads l) = length paths)
  /\ forall j path body,
       uploads l !! j = Some (path, body) ->
       paths !! j = Some path
       /\ body_for options total_videos (index + j) body.

(** A computation whose events all satisfy [P], whatever its result. *)
Definition only {A} (P : event -> bool) (m : M A) : Prop :=
  grows m (fun _ l => Forall (fun e => P e = true) l).

(** What one [upload_video] appends to the log: nothing when it fails
    before the transfer; else the start line, the vendor call and the
    events of the transfer, and then either nothing more, when the
    transfer raised, or the invocation of [finish]. *)
Definition upload_video_post (options : options) (video_path : string)
    (total_videos index : nat) (r : outcome string) (l : list event)
  : Prop :=
  (l = [] /\ raised r <> None)
  \/ exists body cbs,
       body_for options total_videos index body
       /\ Forall (fun e => transfer_event e = true) cbs
       /\ ((l = (start_events video_path body ++ cbs)%list
            /\ raised r <> None)
           \/ exists tail,
                l = (start_events video_path body ++ cbs
                     ++ ProgressFinish :: tail)%list
                /\ Forall (fun e => closing_event e = true) tail).

End Program.


Arguments Environment {World Youtube}.
Arguments to_utf8 {World Youtube}.
Arguments string_escape_decode {World Youtube}.
Arguments format_other_field {World Youtube}.
Arguments string_to_dict {World Youtube}.
Arguments IDS {World Youtube}.
Arguments progressbar {World Youtube}.
Arguments progressbar_call {World Youtube}.
Arguments new_bar_has_next_update {World Youtube}.
Arguments started_bar_has_next_update {World Youtube}.
Arguments format_percent {World Youtube}.
Arguments home {World Youtube}.
Arguments sys_prefix {World Youtube}.
Arguments get_first_existing_filename {World Youtube}.
Arguments get_resource {World Youtube}.
Arguments upload {World Youtube}.
Arguments State {World}.
Arguments world {World}.
Arguments log {World}.
Arguments bar {World}.
Arguments M World A : clear implicits.
Arguments raise {World A}.
Arguments lift {World A}.
Arguments emit_event {World}.
Arguments get_bar {World}.
Arguments set_bar {World}.
Arguments read_world {World A}.
Arguments write {World}.
Arguments flush {World}.
Arguments bar_call {World Youtube}.
Arguments get_progress_info {World Youtube}.
Arguments bar_callback {World Youtube}.
Arguments console_callback {World Youtube}.
Arguments callback {World Youtube}.
Arguments finish {World Youtube}.
Arguments get_category_id {World Youtube}.
Arguments run_callbacks {World}.
Arguments vendor_upload {World Youtube}.
Arguments complete_title {World Youtube}.
Arguments upload_video {World Youtube}.
Arguments upload_loop {World Youtube}.
Arguments auth_request_of {World Youtube}.
Arguments get_resource_call {World Youtube}.
Arguments run_main {World Youtube}.
Arguments main {World Youtube}.
Arguments exit_code {World Youtube}.
Arguments body_for {World Youtube}.
Arguments grows {World A}.
Arguments first_request {World Youtube}.
Arguments loop_uploads {World Youtube}.
Arguments transfer {World Youtube}.
Arguments only {World A}.
Arguments upload_video_post {World Youtube}.

(** ** Templates made of text and the three placeholders *)

Inductive segment :=
| Text (s : string)
| TitleField
| NField
| TotalField.

Fixpoint brace_free (s : string) : bool :=
  match s with
  | "" => true
  | String c rest => negb (is_lbrace c) && negb (is_rbrace c) && brace_free rest
  end.

Definition segment_ok (g : segment) : bool :=
  match g with
  | Text s => brace_free s
  | _ => true
  end.

Definition segment_source (g : segment) : string :=
  match g with
  | Text s => s
  | TitleField => "{title}"
  | NField => "{n}"
  | TotalField => "{total}"
  end.

Definition segment_value (title : string) (n total : nat) (g : segment)
  : string :=
  match g with
  | Text s => s
  | TitleField => title
  | NField => Py.str_of_nat n
  | TotalField => Py.str_of_nat total
  end.

Fixpoint template_of (gs : list segment) : string :=
  match gs with
  | [] => ""
  | g :: rest => segment_source g ++ template_of rest
  end.

Fixpoint filled (title : string) (n total : nat) (gs : list segment) : string :=
  match gs with
  | [] => ""
  | g :: rest => segment_value title n total g ++ filled title n total rest
  end.

(** ** A concrete environment, for examples *)

Definition no_other_fields (text : string) (ns : namespace) : outcome string :=
  Raise (Exception (OtherException "KeyError") text).

(** Uploads succeed, in two chunks, except for the file [broken.avi]. *)
Definition sample_upload (y : unit) (path : string) (body : request_body)
    (w : unit) : upload_run * unit :=
  if String.eqb path "broken.avi"
  then (UploadRun [(100, 50)]%Z
          (Raise (Exception (OtherException "HttpError") "upload failed")), w)
  else (UploadRun [(100, 50); (100, 100)]%Z (Ok ("id-" ++ path)), w).

Definition sample_env : environment unit unit :=
  {| to_utf8 := fun s => s;
     string_escape_decode := fun s => Ok s;
     format_other_field := no_other_fields;
     string_to_dict := fun _ => Ok None;
     IDS := {[ "Music" := 10%nat ]};
     progressbar := true;
     progressbar_call := fun _ w => (None, w);
     new_bar_has_next_update := false;
     started_bar_has_next_update := true;
     format_percent := fun total_size completed =>
       Py.str_of_nat (Z.to_nat (completed * 100 / total_size)) ++ " %" ++ newline;
     home := "/home/user";
     sys_prefix := "/usr";
     get_first_existing_filename := fun _ _ _ => None;
     get_resource := fun _ w => (Ok (Some tt), w);
     upload := sample_upload |}.

Definition sample_state : state unit :=
  {| world := tt; log := [];
     bar := {| has_next_update := false; maxval := None |} |}.

Definition sample_options : options :=
  {| title := Some "Holiday"; category := Some "Music";
     description := Some "At the sea"; tags := Some "a, b,c";
     privacy := "public"; location := None;
     title_template := "{title} [{n}/{total}]";
     progress_type := "console";
     ca_certs_file := None; access_token := None; client_secrets := None;
     credentials_file := None; auth_browser := false |}.

Definition sample_body (complete_title : string) : request_body :=
  {| body_snippet :=
       {| snippet_title := complete_title;
          snippet_tags := ["a"; "b"; "c"];
          snippet_description := "At the sea";
          snippet_categoryId := Some "10" |};
     status_privacyStatus := "public";
     recordingDetails_location := None |}.

(** [--title=Holiday] and nothing else. *)
Definition title_only : options :=
  {| title := Some "Holiday"; category := None; description := None;
     tags := None; privacy := "public"; location := None;
     title_template := "{title} [{n}/{total}]";
     progress_type := "progress";
     ca_certs_file := None; access_token := None; client_secrets := None;
     credentials_file := None; auth_browser := false |}.

Definition title_only_body : request_body :=
  {| body_snippet :=
       {| snippet_title := "Holiday";
          snippet_tags := [""];
          snippet_description := "";
          snippet_categoryId := None |};
     status_privacyStatus := "public";
     recordingDetails_location := None |}.

(** [--title=Holiday --title-template={{n}}] *)
Definition escaped_template : options :=
  {| title := Some "Holiday"; category := None; description := None;
     tags := None; privacy := "public"; location := None;
     title_template := "{{n}}";
     progress_type := "progress";
     ca_certs_file := None; access_token := None; client_secrets := None;
     credentials_file := None; auth_browser := false |}.

(** [--title=Holiday --category=] *)
Definition empty_category : options :=
  {| title := Some "Holiday"; category := Some ""; description := None;
     tags := None; privacy := "public"; location := None;
     title_template := "{title} [{n}/{total}]";
     progress_type := "progress";
     ca_certs_file := None; access_token := None; client_secrets := None;
     credentials_file := None; auth_browser := false |}.

(** [--category=Bogus], with and without a title. *)
Definition bogus_category : options :=
  {| title := Some "Holiday"; category := Some "Bogus"; description := None;
     tags := None; privacy := "public"; location := None;
     title_template := "{title} [{n}/{total}]";
     progress_type := "progress";
     ca_certs_file := None; access_token := None; client_secrets := None;
     credentials_file := None; auth_browser := false |}.

Definition bogus_category_no_title : options :=
  {| title := None; category := Some "Bogus"; description := None;
     tags := None; privacy := "public"; location := None;
     title_template := "{title} [{n}/{total}]";
     progress_type := "progress";
     ca_certs_file := None; access_token := None; client_secrets := None;
     credentials_file := None; auth_browser := false |}.

(** ** Further readings of a run *)

(** The steps of [upload_video] that can fail before anything is printed
    or sent (lines 94, 97, 99 and 111). *)
Definition is_ok {A} (r : outcome A) : bool :=
  match r with
  | Ok _ => true
  | Raise _ => false
  end.

Definition metadata_valid {World Youtube} (env : environment World Youtube)
    (options : options) (total_videos index : nat) : bool :=
  is_ok (string_escape_decode env
           (to_utf8 env (Py.or_else (description options) "")))
  && is_ok (complete_title env options total_videos index)
  && is_ok (get_category_id env (category options))
  && is_ok (string_to_dict env (location options)).

(** Events of the upload phase of [run_main]: everything but the usage and
    the request for a resource. *)
Definition upload_phase_event (e : event) : bool :=
  match e with
  | PrintUsage => false
  | GetResource _ => false
  | _ => true
  end.



(** The line of line 151 for a video identifier. *)
Definition video_url_line (video_id : string) : string :=
  "Video URL " ++ WATCH_VIDEO_URL video_id ++ newline.

(** What the bar reporter logs for the first status report of a transfer
    and for a later one. *)
Definition bar_first_report (r : Z * Z) : list event :=
  [ ProgressCallback (fst r) (snd r);
    ProgressBarCall (BarStart (fst r));
    ProgressBarCall (BarUpdate (snd r)) ].

Definition bar_next_report (r : Z * Z) : list event :=
  [ ProgressCallback (fst r) (snd r);
    ProgressBarCall (BarUpdate (snd r)) ].

(** What the console reporter logs for a status report. *)
Definition console_report {World Youtube} (env : environment World Youtube)
    (r : Z * Z) : list event :=
  [ ProgressCallback (fst r) (snd r);
    Write Stdout (format_percent env (fst r) (snd r));
    Flush Stdout ].

(** The title that the default template gives the file at [index]. *)
Definition default_title (title : string) (index total_videos : nat)
  : string :=
  title ++ " [" ++ Py.str_of_nat (index + 1) ++ "/"
  ++ Py.str_of_nat total_videos ++ "]".

(** [--title=] *)
Definition empty_title : options :=
  {| title := Some ""; category := None; description := None;
     tags := None; privacy := "public"; location := None;
     title_template := "{title} [{n}/{total}]";
     progress_type := "progress";
     ca_certs_file := None; access_token := None; client_secrets := None;
     credentials_file := None; auth_browser := false |}.

(** The sample environment with a [get_resource] that gives no resource. *)
Definition no_resource_env : environment unit unit :=
  {| to_utf8 := to_utf8 sample_env;
     string_escape_decode := string_escape_decode sample_env;
     format_other_field := format_other_field sample_env;
     string_to_dict := string_to_dict sample_env;
     IDS := IDS sample_env;
     progressbar := progressbar sample_env;
     progressbar_call := progressbar_call sample_env;
     new_bar_has_next_update := new_bar_has_next_update sample_env;
     started_bar_has_next_update := started_bar_has_next_update sample_env;
     format_percent := format_percent sample_env;
     home := home sample_env;
     sys_prefix := sys_prefix sample_env;
     get_first_existing_filename := get_first_existing_filename sample_env;
     get_resource := fun _ w => (Ok None, w);
     upload := upload sample_env |}.

(** The state of an [upload_video] once its start line is written and
    flushed (lines 115-116), before the vendor call. *)
Definition announced {World} (st : state World) (video_path : string)
    (body : request_body) : state World :=
  snd ((write Stdout ("Start upload: " ++ video_path ++ " ("
                      ++ snippet_title (body_snippet body) ++ ")" ++ newline);;
        flush Stdout) st).

(** * Properties *)

(** ** Examples *)

Example split_ex : Py.split "," "a, b,c" = ["a"; " b"; "c"].
Proof. reflexivity. Qed.

Example strip_ex : Py.strip "  a b  " = "a b".
Proof. reflexivity. Qed.

Example str_of_nat_ex : Py.str_of_nat 120 = "120" /\ Py.str_of_nat 0 = "0".
Proof. split; reflexivity. Qed.

Example path_join_ex :
  Py.path_join "/home/u" ".client_secrets.json" = "/home/u/.client_secrets.json".
Proof. reflexivity. Qed.

Example format_default :
  format no_other_fields "{title} [{n}/{total}]" (Namespace "Holiday" 2 3)
  = Ok "Holiday [2/3]".
Proof. reflexivity. Qed.

Example format_escaped :
  format no_other_fields "{{n}}" (Namespace "Holiday" 1 2) = Ok "{n}".
Proof. reflexivity. Qed.

Example format_single :
  raised (format no_other_fields "50% } done" (Namespace "Holiday" 1 2))
  = Some ValueError.
Proof. reflexivity. Qed.

Example substitute_default :
  substitute_placeholders "{title} [{n}/{total}]" "Holiday" 2 3 = "Holiday [2/3]".
Proof. reflexivity. Qed.

Example substitute_escaped :
  substitute_placeholders "{{n}}" "Holiday" 1 2 = "{1}".
Proof. reflexivity. Qed.

(** ** Strings *)

Lemma append_cons c s r : String c s ++ r = String c (s ++ r).
Proof. reflexivity. Qed.

Lemma append_empty r : "" ++ r = r.
Proof. reflexivity. Qed.

Lemma split_nonempty sep s : Py.split sep s <> [].
Proof.
  destruct s as [|c s]; simpl; [discriminate|].
  destruct (Ascii.eqb c sep); [discriminate|].
  destruct (Py.split sep s); discriminate.
Qed.

(** Splitting keeps every piece: one more piece than separators. *)
Lemma split_length sep s : length (Py.split sep s) = S (Py.count sep s).
Proof.
  induction s as [|c s IH]; simpl; [reflexivity|].
  destruct (Ascii.eqb c sep); simpl.
  - now rewrite IH.
  - destruct (Py.split sep s) eqn:E; simpl in *; [discriminate | exact IH].
Qed.

Lemma tag_list_length tags :
  length (tag_list tags) = S (Py.count "," (Py.or_else tags "")).
Proof. unfold tag_list. now rewrite length_map, split_length. Qed.

Lemma tag_list_falsy tags : Py.truthy tags = false -> tag_list tags = [""].
Proof.
  destruct tags as [s|]; simpl; [|reflexivity].
  unfold tag_list, Py.or_else. destruct (String.eqb_spec s ""); simpl.
  - reflexivity.
  - discriminate.
Qed.

(** ** The formatter on templates of text and placeholders *)

Section FormatFacts.

Variable other : string -> namespace -> outcome string.
Variable ns : namespace.

Lemma emit_str_empty r : emit_str "" r = r.
Proof. now destruct r. Qed.

Lemma emit_emit_str c s r : emit c (emit_str s r) = emit_str (String c s) r.
Proof. now destruct r. Qed.

Lemma format_go_text s rest :
  brace_free s = true ->
  format_go other ns Literal (s ++ rest)
  = emit_str s (format_go other ns Literal rest).
Proof.
  induction s as [|c s IH]; intros Hs.
  - now rewrite append_empty, emit_str_empty.
  - simpl in Hs. apply andb_prop in Hs as [Hc Hs].
    apply andb_prop in Hc as [Hl Hr].
    apply negb_true_iff in Hl, Hr.
    rewrite append_cons. simpl. rewrite Hl, Hr, (IH Hs).
    apply emit_emit_str.
Qed.

Lemma format_go_title rest :
  format_go other ns Literal ("{title}" ++ rest)
  = emit_str (ns_title ns) (format_go other ns Literal rest).
Proof. reflexivity. Qed.

Lemma format_go_n rest :
  format_go other ns Literal ("{n}" ++ rest)
  = emit_str (Py.str_of_nat (ns_n ns)) (format_go other ns Literal rest).
Proof. reflexivity. Qed.

Lemma format_go_total rest :
  format_go other ns Literal ("{total}" ++ rest)
  = emit_str (Py.str_of_nat (ns_total ns)) (format_go other ns Literal rest).
Proof. reflexivity. Qed.

Lemma format_template gs :
  forallb segment_ok gs = true ->
  format other (template_of gs) ns
  = Ok (filled (ns_title ns) (ns_n ns) (ns_total ns) gs).
Proof.
  unfold format. induction gs as [|g gs IH]; intros Hgs; [reflexivity|].
  simpl in Hgs. apply andb_prop in Hgs as [Hg Hgs].
  specialize (IH Hgs). cbn [template_of filled].
  destruct g; cbn [segment_source segment_value].
  - rewrite format_go_text by exact Hg. now rewrite IH.
  - now rewrite format_go_title, IH.
  - now rewrite format_go_n, IH.
  - now rewrite format_go_total, IH.
Qed.

End FormatFacts.

Section SubstituteFacts.

Variables (title : string) (n total : nat).

Lemma prefix_not_lbrace p c s :
  is_lbrace c = false -> String.prefix (String "{" p) (String c s) = false.
Proof.
  intros Hc. cbn [String.prefix].
  destruct (ascii_dec "{" c) as [<-|]; [discriminate|].
  reflexivity.
Qed.

Lemma substitute_go_text s rest :
  brace_free s = true ->
  substitute_go title n total 0 (s ++ rest)
  = s ++ substitute_go title n total 0 rest.
Proof.
  induction s as [|c s IH]; intros Hs; [reflexivity|].
  simpl in Hs. apply andb_prop in Hs as [Hc Hs].
  apply andb_prop in Hc as [Hl _]. apply negb_true_iff in Hl.
  rewrite !append_cons. cbn [substitute_go].
  rewrite !prefix_not_lbrace by exact Hl. now rewrite (IH Hs).
Qed.

Lemma substitute_go_title rest :
  substitute_go title n total 0 ("{title}" ++ rest)
  = title ++ substitute_go title n total 0 rest.
Proof. destruct rest; reflexivity. Qed.

Lemma substitute_go_n rest :
  substitute_go title n total 0 ("{n}" ++ rest)
  = Py.str_of_nat n ++ substitute_go title n total 0 rest.
Proof. destruct rest; reflexivity. Qed.

Lemma substitute_go_total rest :
  substitute_go title n total 0 ("{total}" ++ rest)
  = Py.str_of_nat total ++ substitute_go title n total 0 rest.
Proof. destruct rest; reflexivity. Qed.

Lemma substitute_template gs :
  forallb segment_ok gs = true ->
  substitute_placeholders (template_of gs) title n total
  = filled title n total gs.
Proof.
  unfold substitute_placeholders.
  induction gs as [|g gs IH]; intros Hgs; [reflexivity|].
  simpl in Hgs. apply andb_prop in Hgs as [Hg Hgs].
  specialize (IH Hgs). cbn [template_of filled].
  destruct g; cbn [segment_source segment_value].
  - rewrite substitute_go_text by exact Hg. now rewrite IH.
  - now rewrite substitute_go_title, IH.
  - now rewrite substitute_go_n, IH.
  - now rewrite substitute_go_total, IH.
Qed.

End SubstituteFacts.

(** ** A logic of logs *)

Open Scope list_scope.

Section LogFacts.

Context {World Youtube : Type}.
Variable env : environment World Youtube.

Implicit Types (st : state World) (l : list event).

Lemma grows_ret {A} (a : A) (Q : outcome A -> list event -> Prop) :
  Q (Ok a) [] -> grows (mret a : M World A) Q.
Proof. intros HQ st. exists []. now rewrite app_nil_r. Qed.

Lemma grows_raise {A} e (Q : outcome A -> list event -> Prop) :
  Q (Raise e) [] -> grows (raise e : M World A) Q.
Proof. intros HQ st. exists []. now rewrite app_nil_r. Qed.

Lemma grows_emit ev (Q : outcome unit -> list event -> Prop) :
  Q (Ok tt) [ev] -> grows (emit_event ev : M World unit) Q.
Proof. intros HQ st. now exists [ev]. Qed.

Lemma grows_set_bar b (Q : outcome unit -> list event -> Prop) :
  Q (Ok tt) [] -> grows (set_bar b : M World unit) Q.
Proof. intros HQ st. exists []. now rewrite app_nil_r. Qed.

Lemma grows_bind {A B} (m : M World A) (f : A -> M World B)
    (Q1 : outcome A -> list event -> Prop)
    (Q2 : A -> outcome B -> list event -> Prop)
    (Q : outcome B -> list event -> Prop) :
  grows m Q1 ->
  (forall a, grows (f a) (Q2 a)) ->
  (forall e l, Q1 (Raise e) l -> Q (Raise e) l) ->
  (forall a l1 r l2, Q1 (Ok a) l1 -> Q2 a r l2 -> Q r (l1 ++ l2)) ->
  grows (m ≫= f) Q.
Proof.
  intros Hm Hf Hraise Hok st. unfold mbind, M_bind.
  destruct (Hm st) as (l1 & E1 & H1).
  destruct (m st) as [[a|e] st1]; simpl in *.
  - destruct (Hf a st1) as (l2 & E2 & H2).
    exists (l1 ++ l2). rewrite E2, E1, app_assoc. eauto.
  - exists l1. eauto.
Qed.

Lemma only_bind {A B} P (m : M World A) (f : A -> M World B) :
  only P m -> (forall a, only P (f a)) -> only P (m ≫= f).
Proof.
  intros Hm Hf.
  apply (grows_bind m f (fun _ l => Forall (fun e => P e = true) l)
           (fun _ _ l => Forall (fun e => P e = true) l));
    [exact Hm | exact Hf | auto |].
  intros a l1 r l2 H1 H2. apply Forall_app; auto.
Qed.

Lemma only_ret {A} P (a : A) : only P (mret a : M World A).
Proof. now apply grows_ret. Qed.

Lemma only_raise {A} P e : only P (raise e : M World A).
Proof. now apply grows_raise. Qed.

Lemma only_emit P ev : P ev = true -> only P (emit_event ev : M World unit).
Proof. intros H. apply grows_emit. now constructor. Qed.

Lemma only_set_bar P b : only P (set_bar b : M World unit).
Proof. now apply grows_set_bar. Qed.

Lemma only_get_bar P : only P (get_bar : M World progress_bar).
Proof. intros st. exists []. now rewrite app_nil_r. Qed.

Lemma only_bar_call P c :
  P (ProgressBarCall c) = true -> only P (bar_call env c).
Proof.
  intros H st. exists [ProgressBarCall c]. unfold bar_call.
  destruct (progressbar_call env c (world st)) as [[e|] w]; simpl;
    (split; [reflexivity | now constructor]).
Qed.

Create HintDb only_db.
Hint Resolve only_ret only_raise only_set_bar only_get_bar : only_db.

Ltac only_step :=
  first [ apply only_bind; [|intros ?]
        | apply only_emit; reflexivity
        | apply only_bar_call; reflexivity
        | solve [auto with only_db] ].

Lemma only_console_callback total_size completed :
  only transfer_event (console_callback env total_size completed).
Proof.
  unfold console_callback, write, flush.
  destruct (negb (Py.fits_float completed)); [only_step|].
  destruct (negb (Py.fits_float total_size)); [only_step|].
  destruct (total_size =? 0)%Z; repeat only_step.
Qed.

Lemma only_bar_callback total_size completed :
  only transfer_event (bar_callback env total_size completed).
Proof.
  unfold bar_callback. only_step; [only_step|].
  only_step; [|only_step].
  destruct (has_next_update a); repeat only_step.
Qed.

Lemma only_run_callbacks (cb : Z -> Z -> M World unit) rs :
  (forall t c, only transfer_event (cb t c)) ->
  only transfer_event (run_callbacks cb rs).
Proof.
  intros Hcb. induction rs as [|[t c] rs IH]; simpl.
  - only_step.
  - only_step; [only_step|]. only_step; [apply Hcb | exact IH].
Qed.

Lemma only_callbacks p rs :
  @only World unit transfer_event
    (match callback env p with
     | Some cb => run_callbacks cb rs
     | None => mret tt
     end).
Proof.
  destruct p; simpl.
  - apply only_run_callbacks, only_bar_callback.
  - apply only_run_callbacks, only_console_callback.
  - only_step.
Qed.

End LogFacts.

(** ** The log of one upload *)

Section UploadFacts.

Context {World Youtube : Type}.
Variable env : environment World Youtube.

Implicit Types (st : state World) (l : list event).

Lemma get_progress_info_log progress_type st :
  log (snd (get_progress_info env progress_type st)) = log st
  /\ world (snd (get_progress_info env progress_type st)) = world st
  /\ exists p, fst (get_progress_info env progress_type st) = Ok p.
Proof.
  unfold get_progress_info.
  destruct (String.eqb progress_type "progressbar" && progressbar env);
    [|destruct (String.eqb progress_type "console")]; simpl; eauto.
Qed.

Lemma vendor_upload_log youtube path body p :
  grows (vendor_upload env youtube path body (callback env p))
    (fun _ l => exists cbs,
         l = Upload path body :: cbs
         /\ Forall (fun e => transfer_event e = true) cbs).
Proof.
  intros st. unfold vendor_upload.
  unfold mbind at 1, M_bind at 1. cbn [emit_event].
  unfold mbind at 1, M_bind at 1. cbn [world log bar].
  destruct (upload env youtube path body (world st)) as [run w] eqn:Eu.
  set (st1 := {| world := w; log := log st ++ [Upload path body];
                 bar := bar st |}).
  destruct (only_callbacks env p (reports run) st1) as (cbs & Ecbs & Hcbs).
  unfold mbind, M_bind.
  destruct (match callback env p with
            | Some cb => run_callbacks cb (reports run)
            | None => mret tt
            end st1) as [[[]|e] st2]; simpl in *;
    exists (Upload path body :: cbs); rewrite Ecbs;
    rewrite <- app_assoc; eauto.
Qed.

Lemma finish_log p :
  grows (finish env p)
    (fun r l => exists tail,
         l = ProgressFinish :: tail
         /\ Forall (fun e => closing_event e = true) tail
         /\ (p <> BarProgress -> r = Ok tt /\ tail = [])).
Proof.
  intros st. unfold finish, mbind, M_bind. cbn [emit_event].
  destruct p; simpl.
  - unfold bar_call; simpl.
    destruct (progressbar_call env BarFinish (world st)) as [[e|] w]; simpl;
      exists [ProgressFinish; ProgressBarCall BarFinish];
      rewrite <- app_assoc; (split; [reflexivity|]);
      exists [ProgressBarCall BarFinish]; repeat split;
      try (repeat constructor); congruence.
  - exists [ProgressFinish]. split; [reflexivity|].
    exists []. auto.
  - exists [ProgressFinish]. split; [reflexivity|].
    exists []. auto.
Qed.

Lemma transfer_log youtube video_path body p :
  grows (transfer env youtube video_path body p)
    (fun r l => exists cbs,
         Forall (fun e => transfer_event e = true) cbs
         /\ ((l = start_events video_path body ++ cbs /\ raised r <> None)
             \/ exists tail,
                  l = start_events video_path body ++ cbs
                      ++ ProgressFinish :: tail
                  /\ Forall (fun e => closing_event e = true) tail)).
Proof.
  intros st.
  destruct (transfer env youtube video_path body p st) as [r st'] eqn:E.
  cbn [fst snd].
  unfold transfer, write, flush, mbind, M_bind in E.
  cbn [emit_event world log bar] in E.
  match type of E with
  | context [vendor_upload env youtube video_path body (callback env p) ?s] =>
      set (st2 := s) in E
  end.
  destruct (vendor_upload_log youtube video_path body p st2)
    as (l & El & cbs & -> & Hcbs).
  destruct (vendor_upload env youtube video_path body (callback env p) st2)
    as [[video_id|e] st3]; simpl in El.
  - destruct (finish_log p st3) as (l & Ef & tail & -> & Htail & _).
    exists (start_events video_path body ++ cbs ++ ProgressFinish :: tail).
    assert (log st' = log st3 ++ ProgressFinish :: tail) as ->.
    { destruct (finish env p st3) as [[[]|e] st4];
        simpl in Ef; injection E as <- <-; exact Ef. }
    rewrite El. subst st2. cbn [log].
    split; [now rewrite <- !app_assoc|].
    exists cbs. split; [exact Hcbs|]. right. exists tail. auto.
  - injection E as <- <-. rewrite El. subst st2. cbn [log].
    exists (start_events video_path body ++ cbs).
    split; [now rewrite <- !app_assoc|].
    exists cbs. split; [exact Hcbs|]. left. split; [reflexivity|discriminate].
Qed.

Lemma upload_video_log youtube options video_path total_videos index :
  grows (upload_video env youtube options video_path total_videos index)
    (upload_video_post env options video_path total_videos index).
Proof.
  intros st.
  destruct (upload_video env youtube options video_path total_videos index st)
    as [r st'] eqn:E.
  cbn [fst snd]. unfold upload_video in E.
  unfold mbind at 1, M_bind at 1, lift at 1 in E.
  destruct (string_escape_decode env _) as [descr|e] eqn:Ed;
    [|injection E as <- <-; exists []; rewrite app_nil_r;
      split; [reflexivity | left; split; [reflexivity | discriminate]]].
  unfold mbind at 1, M_bind at 1, lift at 1 in E.
  destruct (complete_title env options total_videos index) as [ct|e] eqn:Et;
    [|injection E as <- <-; exists []; rewrite app_nil_r;
      split; [reflexivity | left; split; [reflexivity | discriminate]]].
  unfold mbind at 1, M_bind at 1 in E.
  destruct (get_progress_info_log (progress_type options) st)
    as (Hlog & _ & p & Hp).
  destruct (get_progress_info env (progress_type options) st)
    as [rp st1]; simpl in Hlog, Hp; subst rp.
  unfold mbind at 1, M_bind at 1, lift at 1 in E.
  destruct (get_category_id env (category options)) as [cid|e] eqn:Ec;
    [|injection E as <- <-; exists []; rewrite app_nil_r;
      split; [now symmetry | left; split; [reflexivity | discriminate]]].
  unfold mbind at 1, M_bind at 1, lift at 1 in E.
  destruct (string_to_dict env (location options)) as [loc|e] eqn:El;
    [|injection E as <- <-; exists []; rewrite app_nil_r;
      split; [now symmetry | left; split; [reflexivity | discriminate]]].
  set (body := RequestBody _ _ _) in E.
  change (transfer env youtube video_path body p st1 = (r, st')) in E.
  destruct (transfer_log youtube video_path body p st1) as (l & El' & cbs & Hcbs & H).
  rewrite E in El', H. cbn [fst snd] in El', H.
  exists l. rewrite El', Hlog. split; [reflexivity|].
  right. exists body, cbs. split; [|split; assumption].
  subst body. repeat split; cbn; auto.
Qed.

End UploadFacts.

(** ** The vendor uploads of a run *)

Section RunFacts.

Context {World Youtube : Type}.
Variable env : environment World Youtube.

Implicit Types (st : state World) (l : list event).

Lemma uploads_app l1 l2 : uploads (l1 ++ l2) = uploads l1 ++ uploads l2.
Proof. apply omap_app. Qed.

Lemma uploads_none (P : event -> bool) l :
  (forall e, P e = true -> is_upload e = false) ->
  Forall (fun e => P e = true) l -> uploads l = [].
Proof.
  intros HP Hl. induction Hl as [|e l He _ IH]; [reflexivity|].
  unfold uploads in *. cbn [omap list_omap]. apply HP in He.
  destruct e; try discriminate; exact IH.
Qed.

Lemma uploads_transfer l :
  Forall (fun e => transfer_event e = true) l -> uploads l = [].
Proof.
  apply uploads_none. intros [| | | | | |[]|]; simpl; congruence.
Qed.

Lemma uploads_closing l :
  Forall (fun e => closing_event e = true) l -> uploads l = [].
Proof.
  apply uploads_none. intros [| | | | | |[]|]; simpl; congruence.
Qed.

Lemma elem_of_uploads path body l :
  Upload path body ∈ l <-> (path, body) ∈ uploads l.
Proof.
  unfold uploads. rewrite list_elem_of_omap. split.
  - intros H. exists (Upload path body). auto.
  - intros (e & He & Hup). destruct e; try discriminate.
    simpl in Hup. now injection Hup as -> ->.
Qed.

(** One [upload_video] makes at most one vendor upload, of its own file
    with the body built for its index. *)
Lemma upload_video_post_uploads options video_path total_videos index r l :
  upload_video_post env options video_path total_videos index r l ->
  (uploads l = [] /\ raised r <> None)
  \/ exists body, uploads l = [(video_path, body)]
                  /\ body_for env options total_videos index body.
Proof.
  intros [[-> Hr] | (body & cbs & Hbody & Hcbs & H)]; [now left|].
  right. exists body. split; [|exact Hbody].
  destruct H as [[-> _] | (tail & -> & Htail)];
    unfold start_events; rewrite !uploads_app.
  - rewrite (uploads_transfer cbs Hcbs). reflexivity.
  - rewrite (uploads_transfer cbs Hcbs).
    change (ProgressFinish :: tail) with ([ProgressFinish] ++ tail).
    rewrite uploads_app, (uploads_closing tail Htail). reflexivity.
Qed.

Lemma upload_loop_log youtube options output total_videos paths :
  forall index,
    grows (upload_loop env youtube options output total_videos index paths)
      (loop_uploads env options total_videos index paths).
Proof.
  induction paths as [|video_path rest IH]; intros index st.
  - exists []. rewrite app_nil_r. split; [reflexivity|].
    split; [cbn; lia|]. split; [reflexivity|].
    intros j path body H. discriminate.
  - destruct (upload_loop env youtube options output total_videos index
                (video_path :: rest) st) as [r st'] eqn:E.
    cbn [fst snd]. cbn [upload_loop] in E.
    unfold mbind at 1, M_bind at 1 in E.
    destruct (upload_video_log env youtube options video_path total_videos
                index st) as (l1 & El1 & Hpost).
    apply upload_video_post_uploads in Hpost.
    destruct (upload_video env youtube options video_path total_videos
                index st) as [[video_id|e] st1]; cbn [fst snd] in El1, Hpost.
    + destruct Hpost as [[_ Hr] | (body & Hup & Hbody)]; [now elim Hr|].
      unfold write, flush, mbind, M_bind in E.
      cbn [emit_event world log bar] in E.
      match type of E with
      | upload_loop _ _ _ _ _ _ _ ?s = _ => set (st2 := s) in E
      end.
      destruct (IH (S index) st2) as (l2 & El2 & Hlen & Hok & Hnth).
      rewrite E in El2, Hok. cbn [fst snd] in El2, Hok.
      exists (l1 ++ [Write output ("Video URL " +:+ WATCH_VIDEO_URL video_id
                                     +:+ newline); Flush output] ++ l2).
      split.
      { rewrite El2. subst st2. cbn [log]. rewrite El1.
        now rewrite <- !app_assoc. }
      unfold loop_uploads. rewrite !uploads_app, Hup. cbn.
      split; [lia|]. split; [intros H; rewrite (Hok H); reflexivity|].
      intros [|j] path body' H; cbn in H.
      * injection H as <- <-. rewrite Nat.add_0_r. auto.
      * apply Hnth in H as [H1 H2]. rewrite Nat.add_succ_r. auto.
    + injection E as <- <-. exists l1. split; [exact El1|].
      unfold loop_uploads.
      destruct Hpost as [[-> _] | (body & -> & Hbody)].
      * cbn. split; [lia|]. split; [discriminate|]. intros j ? ? H. discriminate.
      * cbn. split; [lia|]. split; [discriminate|].
        intros [|j] path body' H; cbn in H; [|discriminate].
        injection H as <- <-. rewrite Nat.add_0_r. auto.
Qed.

Lemma run_main_log output options args :
  grows (run_main env output options args)
    (loop_uploads env options (length args) 0 args).
Proof.
  intros st.
  destruct (run_main env output options args st) as [r st'] eqn:E.
  cbn [fst snd]. unfold run_main in E.
  destruct (missing_options options) as [|m ms].
  - unfold mbind at 1, M_bind at 1, read_world at 1 in E.
    unfold mbind at 1, M_bind at 1, get_resource_call at 1 in E.
    destruct (get_resource env _ (world st)) as [[[y|]|e] w].
    + match type of E with
      | upload_loop _ _ _ _ _ _ _ ?s = _ => set (st1 := s) in E
      end.
      destruct (upload_loop_log y options output (length args) args 0 st1)
        as (l & El & Hl).
      rewrite E in El, Hl. cbn [fst snd] in El, Hl.
      exists (GetResource
                (auth_request_of env options
                   (get_first_existing_filename env
                      [sys_prefix env; Py.path_join (sys_prefix env) "local"]
                      "share/youtube_upload/client_secrets.json" (world st)))
              :: l).
      split.
      { rewrite El. subst st1. cbn [log]. now rewrite <- app_assoc. }
      destruct Hl as (H1 & H2 & H3). repeat split; auto.
      all: intros; eapply H3; eauto.
    + injection E as <- <-. eexists [_]. split; [reflexivity|].
      repeat split; cbn; try lia; try discriminate.
      all: intros j ? ? H; discriminate.
    + injection E as <- <-. eexists [_]. split; [reflexivity|].
      repeat split; cbn; try lia; try discriminate.
      all: intros j ? ? H; discriminate.
  - injection E as <- <-. eexists [_]. split; [reflexivity|].
    repeat split; cbn; try lia; try discriminate.
    all: intros j ? ? H; discriminate.
Qed.

End RunFacts.

(** ** The request bodies of a run *)

Section BodyFacts.

Context {World Youtube : Type}.
Variable env : environment World Youtube.

Implicit Types (st : state World) (l : list event).

(** In a run that starts with an empty log, the [j]-th vendor upload is of
    the [j]-th input file, with the body built for index [j]. *)
Lemma run_upload_nth output options args st j path body :
  log st = [] ->
  uploads (log (snd (run_main env output options args st))) !! j
    = Some (path, body) ->
  args !! j = Some path /\ body_for env options (length args) j body.
Proof.
  intros Hst H.
  destruct (run_main_log env output options args st) as (l & El & _ & _ & Hl).
  rewrite El, Hst in H. exact (Hl j path body H).
Qed.

Lemma run_upload_body output options args st path body :
  log st = [] ->
  Upload path body ∈ log (snd (run_main env output options args st)) ->
  exists j, args !! j = Some path
            /\ body_for env options (length args) j body.
Proof.
  intros Hst H. apply elem_of_uploads in H.
  apply list_elem_of_lookup in H as [j Hj].
  exists j. eapply run_upload_nth; eauto.
Qed.

(** C7: with [--tags="a, b,c"], every request body that a run submits to
    the vendor upload carries the tag sequence ["a"; "b"; "c"]: the string
    is split on commas and each piece is stripped of surrounding
    whitespace. *)
Theorem tags_split_and_stripped output options args st path body :
  tags options = Some "a, b,c" ->
  log st = [] ->
  Upload path body ∈ log (snd (run_main env output options args st)) ->
  snippet_tags (body_snippet body)
    = map Py.strip (Py.split "," "a, b,c")
  /\ snippet_tags (body_snippet body) = ["a"; "b"; "c"]%string.
Proof.
  intros Htags Hst H.
  destruct (run_upload_body _ _ _ _ _ _ Hst H) as (j & _ & _ & Ht & _).
  rewrite Ht, Htags. split; reflexivity.
Qed.

(** C10: when [--tags] is absent or empty, every request body that a run
    submits carries the tag sequence [""], one empty string, not the empty
    list; in general the tags are the pieces between the commas, each
    stripped, one more than there are commas: no piece is removed. *)
Theorem tags_keep_empty_entries output options args st path body :
  log st = [] ->
  Upload path body ∈ log (snd (run_main env output options args st)) ->
  snippet_tags (body_snippet body)
    = map Py.strip (Py.split "," (Py.or_else (tags options) ""))
  /\ length (snippet_tags (body_snippet body))
     = S (Py.count "," (Py.or_else (tags options) ""))
  /\ (tags options = None \/ tags options = Some ""%string ->
      snippet_tags (body_snippet body) = [""%string]).
Proof.
  intros Hst H.
  destruct (run_upload_body _ _ _ _ _ _ Hst H) as (j & _ & _ & Ht & _).
  rewrite Ht. split; [reflexivity|]. split; [apply tag_list_length|].
  intros [-> | ->]; reflexivity.
Qed.

(** C1, as amended: in a run over [N] files, the title in the request body
    of the upload at zero-based index [i] is the [--title] value (after
    [lib.to_utf8]) when [N = 1]; when [N > 1] it is what [str.format]
    makes of the title template with [title], [n = i+1] and [total = N],
    which for a template whose braces all belong to the placeholders
    [{title}], [{n}] and [{total}] is the template with those placeholders
    replaced. *)
Theorem title_of_upload output options args st i path body t :
  log st = [] ->
  title options = Some t ->
  uploads (log (snd (run_main env output options args st))) !! i
    = Some (path, body) ->
  let emitted := snippet_title (body_snippet body) in
  let ns := {| ns_title := to_utf8 env t; ns_n := i + 1;
               ns_total := length args |} in
  args !! i = Some path
  /\ (length args = 1 -> emitted = to_utf8 env t)
  /\ (1 < length args ->
      format (format_other_field env) (title_template options) ns
      = Ok emitted)
  /\ (1 < length args ->
      forall gs, title_template options = template_of gs ->
                 forallb segment_ok gs = true ->
                 emitted
                 = substitute_placeholders (title_template options)
                     (to_utf8 env t) (i + 1) (length args)).
Proof.
  intros Hst Ht H emitted ns.
  destruct (run_upload_nth _ _ _ _ _ _ _ Hst H) as (Hpath & Hct & _).
  split; [exact Hpath|].
  unfold complete_title in Hct. rewrite Ht in Hct.
  assert (Py.or_else (Some t) "" = t) as Hor.
  { simpl. now destruct (String.eqb_spec t ""). }
  rewrite Hor in Hct. fold ns in Hct. fold emitted in Hct.
  split; [|split].
  - intros HN. rewrite HN in Hct. simpl in Hct. congruence.
  - intros HN. apply Nat.ltb_lt in HN. now rewrite HN in Hct.
  - intros HN gs Hgs Hok. apply Nat.ltb_lt in HN. rewrite HN in Hct.
    rewrite Hgs in Hct |- *.
    rewrite (format_template _ ns gs Hok) in Hct.
    rewrite (substitute_template _ _ _ gs Hok). simpl in Hct. congruence.
Qed.

End BodyFacts.

(** ** Options, categories and the progress reporter *)

Section GuardFacts.

Context {World Youtube : Type}.
Variable env : environment World Youtube.

Implicit Types (st : state World) (l : list event).

Lemma missing_options_title options :
  missing_options options
  = if Py.truthy (title options) then [] else ["title"%string].
Proof.
  unfold missing_options, required_options, getattr. simpl.
  destruct (title options) as [t|]; simpl; [|reflexivity].
  now destruct (String.eqb t "").
Qed.

(** C5: when [--title] is absent, [run_main] prints the usage and raises
    [OptionsMissing]; the world is untouched and the usage is the only
    event: no credentials are loaded, no resource is requested, nothing is
    uploaded. *)
Theorem missing_title_raises_first output options args st :
  title options = None ->
  run_main env output options args st
  = (Raise (Exception OptionsMissing
              "Some required option are missing: title"),
     {| world := world st; log := log st ++ [PrintUsage]; bar := bar st |}).
Proof.
  intros Ht. unfold run_main. rewrite missing_options_title, Ht.
  reflexivity.
Qed.


Lemma get_category_id_unknown options c :
  category options = Some c -> c <> ""%string -> IDS env !! c = None ->
  get_category_id env (category options)
  = Raise (Exception InvalidCategory (c +:+ " is not a valid category")).
Proof.
  intros -> Hc Hids. unfold get_category_id. simpl.
  destruct (String.eqb_spec c ""); [contradiction|]. simpl.
  now rewrite Hids.
Qed.

(** C2, as amended: in a run that gets as far as building the request of
    its first file (the title is set, a resource is obtained, there is at
    least one input file, the description decodes and the title formats),
    a non-empty [--category] name that is not in the category table makes
    [upload_video] raise [InvalidCategory] for the first file, before the
    start line and the vendor call: the run makes no upload at all. *)
Theorem unknown_category_stops_run output options video_path rest st c y :
  Py.truthy (title options) = true ->
  category options = Some c -> c <> ""%string -> IDS env !! c = None ->
  fst (get_resource env (first_request env options (world st)) (world st))
    = Ok (Some y) ->
  raised (string_escape_decode env
            (to_utf8 env (Py.or_else (description options) ""))) = None ->
  raised (complete_title env options (length (video_path :: rest)) 0)
    = None ->
  let run := run_main env output options (video_path :: rest) st in
  fst run = Raise (Exception InvalidCategory
                     (c +:+ " is not a valid category"))
  /\ log (snd run)
     = log st ++ [GetResource (first_request env options (world st))]
  /\ uploads (log (snd run)) = uploads (log st).
Proof.
  intros Ht Hc Hne Hids Hy Hd Hct run.
  assert (fst run = Raise (Exception InvalidCategory
                             (c +:+ " is not a valid category"))
          /\ log (snd run)
             = log st ++ [GetResource (first_request env options (world st))])
    as [H1 H2].
  { subst run.
    destruct (run_main env output options (video_path :: rest) st)
      as [r st'] eqn:E.
    cbn [fst snd]. unfold run_main in E.
    rewrite missing_options_title, Ht in E.
    unfold mbind at 1, M_bind at 1, read_world at 1 in E.
    unfold mbind at 1, M_bind at 1, get_resource_call at 1 in E.
    fold (first_request env options (world st)) in E.
    destruct (get_resource env _ (world st)) as [ry w]. simpl in Hy.
    subst ry. cbn [upload_loop] in E. unfold mbind at 1, M_bind at 1 in E.
    unfold upload_video in E.
    unfold mbind at 1, M_bind at 1, lift at 1 in E.
    destruct (string_escape_decode env _) as [d|]; [|discriminate].
    unfold mbind at 1, M_bind at 1, lift at 1 in E.
    destruct (complete_title env options _ 0) as [ct|]; [|discriminate].
    unfold mbind at 1, M_bind at 1 in E.
    match type of E with
    | context [get_progress_info env ?t ?s] =>
        destruct (get_progress_info_log env t s) as (Hl & _ & p & Hp);
        destruct (get_progress_info env t s) as [rp st1]
    end.
    simpl in Hl, Hp. subst rp.
    unfold mbind at 1, M_bind at 1, lift at 1 in E.
    rewrite (get_category_id_unknown options c Hc Hne Hids) in E.
    injection E as <- <-. split; [reflexivity | exact Hl]. }
  split; [exact H1|]. split; [exact H2|].
  rewrite H2, uploads_app. cbn. apply app_nil_r.
Qed.

Lemma silent_transfer youtube video_path body st :
  exists tail,
    log (snd (transfer env youtube video_path body NoProgress st))
    = log st ++ start_events video_path body ++ tail
    /\ (tail = [] \/ tail = [ProgressFinish]).
Proof.
  unfold transfer, vendor_upload, write, flush, finish, lift, mbind, M_bind.
  cbn [callback emit_event world log bar].
  destruct (upload env youtube video_path body (world st)) as [run w].
  cbn [mret M_ret]. destruct (response run) as [video_id|e]; cbn [log snd].
  - exists [ProgressFinish]. split; [|now right].
    unfold start_events. now rewrite <- !app_assoc.
  - exists []. split; [|now left].
    unfold start_events. now rewrite <- !app_assoc.
Qed.

(** C3 does not hold of the code. With the default [--progress-type],
    ["progress"], [get_progress_info] builds the third reporter, whose
    callback is [None]: the test of line 58 is against ["progressbar"],
    whether or not the progress bar library is there. A transfer under that
    reporter logs its start line, the vendor call and, when the call
    returns, [finish]: no progress is written. *)
Theorem default_progress_type_is_silent st :
  get_progress_info env (progress_type default_options) st
  = (Ok NoProgress, st)
  /\ callback env NoProgress = None
  /\ forall youtube video_path body st0,
       exists tail,
         log (snd (transfer env youtube video_path body NoProgress st0))
         = log st0 ++ start_events video_path body ++ tail
         /\ (tail = [] \/ tail = [ProgressFinish]).
Proof.
  unfold get_progress_info. cbn [progress_type default_options].
  change (String.eqb "progress" "progressbar") with false.
  change (String.eqb "progress" "console") with false.
  split; [reflexivity|]. split; [reflexivity|]. apply silent_transfer.
Qed.

(** The two names that do select a reporter. *)
Lemma console_progress_type st :
  fst (get_progress_info env "console" st) = Ok ConsoleProgress.
Proof.
  unfold get_progress_info.
  change (String.eqb "console" "progressbar") with false.
  reflexivity.
Qed.

Lemma progressbar_progress_type st :
  progressbar env = true ->
  fst (get_progress_info env "progressbar" st) = Ok BarProgress.
Proof.
  intros H. unfold get_progress_info.
  change (String.eqb "progressbar" "progressbar") with true.
  now rewrite H.
Qed.

(** C9, as amended: the console callback divides by [total_size]
    unguarded, in floats. When [completed] and [total_size] convert to
    floats: for [total_size = 0] it raises [ZeroDivisionError] whatever
    [completed] is, writing nothing; for [total_size > 0] it writes its
    line, flushes and returns; so on sizes, which are not negative, it
    returns exactly when [total_size > 0]. When one of the two is beyond
    the floats it raises [OverflowError] instead, before the division,
    writing nothing. *)
Theorem console_callback_needs_positive_size total_size completed st :
  let r := console_callback env total_size completed st in
  (Py.fits_float completed = false \/ Py.fits_float total_size = false ->
   raised (fst r) = Some OverflowError /\ snd r = st)
  /\ (Py.fits_float completed = true ->
      Py.fits_float total_size = true ->
      (total_size = 0 ->
       r = (Raise (Exception ZeroDivisionError "float division by zero"),
            st))%Z
      /\ (0 < total_size ->
          r = (Ok tt,
               {| world := world st;
                  log := log st
                         ++ [Write Stdout
                               (format_percent env total_size completed);
                             Flush Stdout];
                  bar := bar st |}))%Z
      /\ (0 <= total_size -> (raised (fst r) = None <-> 0 < total_size))%Z).
Proof.
  intros r. subst r. unfold console_callback. split.
  - intros [Hc | Ht].
    + rewrite Hc. split; reflexivity.
    + destruct (Py.fits_float completed); rewrite ?Ht; split; reflexivity.
  - intros Hc Ht. rewrite Hc, Ht. cbn [negb]. split; [|split].
    + intros ->. reflexivity.
    + intros H. destruct (Z.eqb_spec total_size 0); [lia|].
      unfold write, flush, mbind, M_bind, emit_event. cbn.
      now rewrite <- app_assoc.
    + intros H. destruct (Z.eqb_spec total_size 0) as [->|Hne].
      * split; [discriminate | lia].
      * split; [lia | reflexivity].
Qed.

(** C4: the exit code is 0 when the run returns, the table's entry when
    it raises a class of the table (2, 3, 4, 4, 5, 6) and the default,
    non-zero code for any other class. *)
Theorem exit_code_table (default_code : Z) options args st :
  default_code <> 0%Z ->
  let r := fst (main env options args st) in
  let code := exit_code env default_code options args st in
  (raised r = None -> code = 0)%Z
  /\ (raised r = Some OptionsMissing -> code = 2)%Z
  /\ (raised r = Some InvalidCategory -> code = 3)%Z
  /\ (raised r = Some AuthenticationError -> code = 4)%Z
  /\ (raised r = Some FlowExchangeError -> code = 4)%Z
  /\ (raised r = Some AccessTokenCredentialsError -> code = 5)%Z
  /\ (raised r = Some NotImplementedError -> code = 6)%Z
  /\ (forall cls, raised r = Some cls ->
                  dict_get EXIT_CODES cls = None ->
                  code = default_code /\ code <> 0%Z).
Proof.
  intros Hd r code. subst code. unfold exit_code. fold r.
  destruct r as [[]|[cls msg]]; cbn [raised catch_exceptions exc_class].
  - split; [reflexivity|]. do 6 (split; [discriminate|]).
    intros ? [=].
  - split; [discriminate|].
    do 6 (split; [intros [= ->]; reflexivity|]).
    intros cls' [= <-] Hnone. rewrite Hnone. auto.
Qed.

End GuardFacts.

(** ** The end of an upload and the end of a run *)

Section SequenceFacts.

Context {World Youtube : Type}.
Variable env : environment World Youtube.

Implicit Types (st : state World) (l : list event).

Lemma transfer_not_finish l :
  Forall (fun e => transfer_event e = true) l ->
  Forall (fun e => is_finish e = false) l.
Proof.
  intros H. eapply Forall_impl; [exact H|].
  intros [| | | | | |[]|]; simpl; congruence.
Qed.

Lemma closing_not_finish_nor_callback l :
  Forall (fun e => closing_event e = true) l ->
  Forall (fun e => is_finish e = false /\ is_callback e = false) l.
Proof.
  intros H. eapply Forall_impl; [exact H|].
  intros [| | | | | |[]|]; simpl; intuition congruence.
Qed.

Lemma finish_quiet p st :
  p <> BarProgress ->
  finish env p st
  = (Ok tt, {| world := world st; log := log st ++ [ProgressFinish];
               bar := bar st |}).
Proof. destruct p; [contradiction | reflexivity | reflexivity]. Qed.

Lemma upload_video_transfer youtube options video_path total_videos index st
    descr ct cid loc p st1 :
  string_escape_decode env
    (to_utf8 env (Py.or_else (description options) "")) = Ok descr ->
  complete_title env options total_videos index = Ok ct ->
  get_progress_info env (progress_type options) st = (Ok p, st1) ->
  get_category_id env (category options) = Ok cid ->
  string_to_dict env (location options) = Ok loc ->
  upload_video env youtube options video_path total_videos index st
  = transfer env youtube video_path
      (RequestBody (Snippet ct (tag_list (tags options)) descr cid)
         (privacy options) loc) p st1.
Proof.
  intros Hd Hct Hp Hc Hl. unfold upload_video.
  unfold mbind at 1, M_bind at 1, lift at 1. rewrite Hd.
  unfold mbind at 1, M_bind at 1, lift at 1. rewrite Hct.
  unfold mbind at 1, M_bind at 1. rewrite Hp.
  unfold mbind at 1, M_bind at 1, lift at 1. rewrite Hc.
  unfold mbind at 1, M_bind at 1, lift at 1. rewrite Hl.
  reflexivity.
Qed.

Lemma upload_video_invalid youtube options video_path total_videos index st :
  metadata_valid env options total_videos index = false ->
  raised (fst (upload_video env youtube options video_path total_videos
                 index st)) <> None
  /\ log (snd (upload_video env youtube options video_path total_videos
                 index st)) = log st.
Proof.
  unfold metadata_valid. intros Hv.
  destruct (upload_video env youtube options video_path total_videos index st)
    as [r st'] eqn:E.
  cbn [fst snd]. unfold upload_video in E.
  unfold mbind at 1, M_bind at 1, lift at 1 in E.
  destruct (string_escape_decode env _) as [descr|e];
    [|injection E as <- <-; split; [discriminate | reflexivity]].
  unfold mbind at 1, M_bind at 1, lift at 1 in E.
  destruct (complete_title env options total_videos index) as [ct|e];
    [|injection E as <- <-; split; [discriminate | reflexivity]].
  unfold mbind at 1, M_bind at 1 in E.
  destruct (get_progress_info_log env (progress_type options) st)
    as (Hlog & _ & p & Hp).
  destruct (get_progress_info env (progress_type options) st) as [rp st1].
  cbn [fst snd] in Hlog, Hp. subst rp.
  unfold mbind at 1, M_bind at 1, lift at 1 in E.
  destruct (get_category_id env (category options)) as [cid|e];
    [|injection E as <- <-; split; [discriminate | exact Hlog]].
  unfold mbind at 1, M_bind at 1, lift at 1 in E.
  destruct (string_to_dict env (location options)) as [loc|e];
    [|injection E as <- <-; split; [discriminate | exact Hlog]].
  discriminate.
Qed.

Lemma announced_log st1 video_path body :
  log (announced st1 video_path body)
  = log st1
    ++ [Write Stdout ("Start upload: " +:+ video_path +:+ " ("
                      +:+ snippet_title (body_snippet body) +:+ ")"
                      +:+ newline);
        Flush Stdout].
Proof.
  unfold announced, write, flush, mbind, M_bind. cbn [emit_event snd log].
  now rewrite <- app_assoc.
Qed.

(** C8, as amended: an [upload_video] whose request cannot be built raises
    without a vendor call and without [finish]. Otherwise it is the
    transfer of lines 115-120, and there [finish] is invoked exactly when
    the vendor upload call returns: if that call raises, by itself or
    through a callback, its exception leaves [upload_video] at once, in
    the state the call left, and [finish] is not invoked; if it returns a
    video identifier, [finish] is invoked once, after every callback, and
    the result is the identifier, or the exception of [finish]. The
    [finish] of the console and of the silent reporter does not raise;
    that of the bar is the library's. *)
Theorem finish_once_after_callbacks youtube options video_path
    total_videos index st :
  let run := upload_video env youtube options video_path total_videos
               index st in
  let built := get_progress_info env (progress_type options) st in
  (metadata_valid env options total_videos index = false ->
   raised (fst run) <> None /\ log (snd run) = log st)
  /\ (metadata_valid env options total_videos index = true ->
      exists body p,
        body_for env options total_videos index body
        /\ fst built = Ok p /\ log (snd built) = log st
        /\ run = transfer env youtube video_path body p (snd built))
  /\ (forall body p st1,
        let sent := vendor_upload env youtube video_path body
                      (callback env p) (announced st1 video_path body) in
        let finished := finish env p (snd sent) in
        let done := transfer env youtube video_path body p st1 in
        (exists cbs,
            log (snd sent) = log st1 ++ start_events video_path body ++ cbs
            /\ Forall (fun e => is_finish e = false) cbs)
        /\ (forall e, fst sent = Raise e -> done = (Raise e, snd sent))
        /\ (forall video_id,
              fst sent = Ok video_id ->
              done = (match fst finished with
                      | Ok _ => Ok video_id
                      | Raise e => Raise e
                      end, snd finished)
              /\ exists tail,
                   log (snd finished)
                   = log (snd sent) ++ ProgressFinish :: tail
                   /\ Forall (fun e => is_finish e = false
                                       /\ is_callback e = false) tail))
  /\ (forall p st0, p <> BarProgress -> fst (finish env p st0) = Ok tt).
Proof.
  intros run built. split; [|split; [|split]].
  - apply upload_video_invalid.
  - unfold metadata_valid. intros Hv. subst run built.
    destruct (string_escape_decode env _) as [descr|] eqn:Hd;
      [|discriminate].
    destruct (complete_title env options total_videos index) as [ct|] eqn:Hct;
      [|discriminate].
    destruct (get_category_id env (category options)) as [cid|] eqn:Hc;
      [|discriminate].
    destruct (string_to_dict env (location options)) as [loc|] eqn:Hl;
      [|discriminate].
    destruct (get_progress_info_log env (progress_type options) st)
      as (Hlog & _ & p & Hp).
    destruct (get_progress_info env (progress_type options) st)
      as [rp st1] eqn:Hgp.
    cbn [fst snd] in Hlog, Hp |- *. subst rp.
    exists (RequestBody (Snippet ct (tag_list (tags options)) descr cid)
              (privacy options) loc), p.
    split; [repeat split; cbn; auto|].
    split; [reflexivity|]. split; [exact Hlog|].
    now apply upload_video_transfer.
  - intros body p st1 sent finished done.
    destruct (vendor_upload_log env youtube video_path body p
                (announced st1 video_path body)) as (l & El & cbs & -> & Hcbs).
    fold sent in El. split; [|split].
    + exists cbs. split; [|now apply transfer_not_finish].
      rewrite El, announced_log. unfold start_events.
      now rewrite <- app_assoc.
    + intros e He. subst done. unfold transfer.
      unfold write, flush, mbind, M_bind. cbn [emit_event].
      change (vendor_upload env youtube video_path body (callback env p)
                _) with sent.
      destruct sent as [rs st2]. cbn [fst snd] in *. now subst rs.
    + intros video_id Hid. split.
      * subst done. unfold transfer.
        unfold write, flush, mbind, M_bind. cbn [emit_event].
        change (vendor_upload env youtube video_path body (callback env p)
                  _) with sent.
        subst finished. destruct sent as [rs st2]. cbn [fst snd] in *.
        subst rs. now destruct (finish env p st2) as [[[]|e] st3].
      * destruct (finish_log env p (snd sent)) as (l & Ef & tail & -> & Htail & _).
        exists tail. split; [exact Ef|].
        now apply closing_not_finish_nor_callback.
  - intros p st0 Hp. now rewrite finish_quiet.
Qed.

(** The loop over a concatenation. *)
Lemma upload_loop_app youtube options output total_videos paths1 paths2 :
  forall index st,
    upload_loop env youtube options output total_videos index
      (paths1 ++ paths2) st
    = match upload_loop env youtube options output total_videos index
              paths1 st with
      | (Ok _, st1) =>
          upload_loop env youtube options output total_videos
            (index + length paths1) paths2 st1
      | (Raise e, st1) => (Raise e, st1)
      end.
Proof.
  induction paths1 as [|p paths1 IH]; intros index st.
  - cbn. now rewrite Nat.add_0_r.
  - cbn [app upload_loop length].
    unfold write, flush, mbind, M_bind.
    destruct (upload_video env youtube options p total_videos index st)
      as [[video_id|e] st1]; [|reflexivity].
    cbn [emit_event]. rewrite IH. now rewrite Nat.add_succ_r.
Qed.

Lemma loop_uploads_paths options total_videos index paths l :
  loop_uploads env options total_videos index paths (Ok tt) l ->
  map fst (uploads l) = paths.
Proof.
  intros (_ & Hlen & Hnth). specialize (Hlen eq_refl).
  apply list_eq. intros j. rewrite list_lookup_fmap.
  destruct (uploads l !! j) as [[path body]|] eqn:E; simpl.
  - now destruct (Hnth j path body E) as [-> _].
  - symmetry. apply lookup_ge_None. apply lookup_ge_None in E. lia.
Qed.

(** C6: in a run over any list of files (two or more in particular), if
    the files before index [i] upload and the [upload_video] of the file
    at index [i] raises, the run ends there with that exception: the
    files that the run has uploaded are the first [k] input files, in
    order, for some [k <= i + 1], so none at an index above [i]; and the
    exit code is the one that the table, or else the default, gives the
    class of the exception. *)
Theorem failed_upload_stops_run (default_code : Z) options args st
    youtube st1 i video_path st_i e st_f :
  Py.truthy (title options) = true ->
  get_resource_call env (first_request env options (world st)) st
    = (Ok (Some youtube), st1) ->
  args !! i = Some video_path ->
  upload_loop env youtube options Stdout (length args) 0 (take i args) st1
    = (Ok tt, st_i) ->
  upload_video env youtube options video_path (length args) i st_i
    = (Raise e, st_f) ->
  main env options args st = (Raise e, st_f)
  /\ (exists k, k <= S i
                /\ map fst (uploads (log st_f))
                   = map fst (uploads (log st)) ++ take k args)
  /\ exit_code env default_code options args st
     = match dict_get EXIT_CODES (exc_class e) with
       | Some code => code
       | None => default_code
       end.
Proof.
  intros Ht Hy Hi Hloop Hfail.
  assert (main env options args st = (Raise e, st_f)) as Hmain.
  { unfold main, run_main. rewrite missing_options_title, Ht.
    unfold mbind at 1, M_bind at 1, read_world at 1.
    fold (first_request env options (world st)).
    unfold mbind at 1, M_bind at 1. rewrite Hy.
    rewrite <- (take_drop_middle args i video_path Hi) at 2.
    rewrite upload_loop_app, Hloop.
    cbn [upload_loop]. unfold mbind at 1, M_bind at 1.
    rewrite length_take_le by (apply lookup_lt_Some in Hi; lia).
    cbn [Nat.add]. now rewrite Hfail. }
  split; [exact Hmain|]. split.
  - assert (uploads (log st1) = uploads (log st)) as H1.
    { unfold get_resource_call in Hy.
      destruct (get_resource env _ (world st)) as [r w].
      injection Hy as _ <-. cbn [log]. rewrite uploads_app. cbn.
      apply app_nil_r. }
    destruct (upload_loop_log env youtube options Stdout (length args)
                (take i args) 0 st1) as (l & El & Hl).
    rewrite Hloop in El, Hl. cbn [fst snd] in El, Hl.
    apply loop_uploads_paths in Hl.
    destruct (upload_video_log env youtube options video_path (length args)
                i st_i) as (l' & El' & Hpost).
    rewrite Hfail in El', Hpost. cbn [fst snd] in El', Hpost.
    apply upload_video_post_uploads in Hpost.
    rewrite El', El, !uploads_app, H1, !map_app, Hl.
    destruct Hpost as [[-> _] | (body & -> & _)].
    + exists i. split; [lia|]. cbn. now rewrite app_nil_r.
    + exists (S i). split; [lia|]. cbn.
      rewrite (take_S_r args i video_path Hi). now rewrite <- app_assoc.
  - unfold exit_code. now rewrite Hmain.
Qed.

End SequenceFacts.

(** ** Concrete runs *)

Open Scope string_scope.

Lemma tags_split_and_stripped_witness :
  snippet_tags (body_snippet (sample_body "Holiday"))
    = map Py.strip (Py.split "," "a, b,c")
  /\ snippet_tags (body_snippet (sample_body "Holiday")) = ["a"; "b"; "c"].
Proof.
  apply (tags_split_and_stripped sample_env Stdout sample_options ["a.avi"]
           sample_state "a.avi" (sample_body "Holiday")).
  - reflexivity.
  - reflexivity.
  - apply list_elem_of_lookup. exists 3%nat. vm_compute. reflexivity.
Defined.

Lemma tags_keep_empty_entries_witness :
  snippet_tags (body_snippet title_only_body) = [""].
Proof.
  apply (tags_keep_empty_entries sample_env Stdout title_only ["a.avi"]
           sample_state "a.avi" title_only_body).
  - reflexivity.
  - apply list_elem_of_lookup. exists 3%nat. vm_compute. reflexivity.
  - left. reflexivity.
Defined.

Lemma title_of_upload_witness :
  snippet_title (body_snippet (sample_body "Holiday [2/2]"))
  = substitute_placeholders "{title} [{n}/{total}]" "Holiday" 2 2.
Proof.
  apply (title_of_upload sample_env Stdout sample_options ["a.avi"; "b.avi"]
           sample_state 1 "b.avi" (sample_body "Holiday [2/2]") "Holiday")
    with (gs := [TitleField; Text " ["; NField; Text "/"; TotalField;
                 Text "]"]).
  - reflexivity.
  - reflexivity.
  - vm_compute. reflexivity.
  - simpl. lia.
  - reflexivity.
  - reflexivity.
Defined.

(** C1 does not hold as stated: with [--title-template={{n}}] and two
    files, [str.format] takes the doubled braces for literal braces and the
    title of the first upload is ["{n}"], where replacing the placeholder
    gives ["{1}"]. *)
Lemma escaped_braces_are_not_placeholders :
  exists body,
    uploads (log (snd (main sample_env escaped_template ["a.avi"; "b.avi"]
                         sample_state))) !! 0%nat
    = Some ("a.avi", body)
    /\ snippet_title (body_snippet body) = "{n}"
    /\ substitute_placeholders (title_template escaped_template) "Holiday"
         (0 + 1) 2 = "{1}"
    /\ snippet_title (body_snippet body)
       <> substitute_placeholders (title_template escaped_template) "Holiday"
            (0 + 1) 2.
Proof.
  eexists. split; [vm_compute; reflexivity|].
  split; [reflexivity|]. split; [reflexivity|]. discriminate.
Qed.

Lemma unknown_category_stops_run_witness :
  let run := run_main sample_env Stdout bogus_category ["a.avi"; "b.avi"]
               sample_state in
  fst run = Raise (Exception InvalidCategory "Bogus is not a valid category")
  /\ log (snd run)
     = (log sample_state
        ++ [GetResource (first_request sample_env bogus_category
                           (world sample_state))])%list
  /\ uploads (log (snd run)) = uploads (log sample_state).
Proof.
  apply (unknown_category_stops_run sample_env Stdout bogus_category "a.avi"
           ["b.avi"] sample_state "Bogus" tt).
  - reflexivity.
  - reflexivity.
  - discriminate.
  - vm_compute. reflexivity.
  - reflexivity.
  - reflexivity.
  - reflexivity.
Defined.

(** C2 does not hold as stated. The empty name [--category=] is not in
    the table, yet [get_category_id] does not look it up (line 83): the run
    uploads its file and returns. And a run with [--category=Bogus], a name
    that the table does not have either, and no [--title] raises
    [OptionsMissing], not [InvalidCategory]. *)
Lemma unknown_category_not_always_invalid :
  (category empty_category = Some ""
   /\ IDS sample_env !! "" = None
   /\ fst (main sample_env empty_category ["a.avi"] sample_state) = Ok tt
   /\ map fst (uploads (log (snd (main sample_env empty_category ["a.avi"]
                                    sample_state))))
      = ["a.avi"])
  /\ (category bogus_category_no_title = Some "Bogus"
      /\ IDS sample_env !! "Bogus" = None
      /\ raised (fst (main sample_env bogus_category_no_title ["a.avi"]
                        sample_state))
         = Some OptionsMissing).
Proof.
  split.
  - split; [reflexivity|]. split; [vm_compute; reflexivity|].
    split; vm_compute; reflexivity.
  - split; [reflexivity|]. split; [vm_compute; reflexivity|]. reflexivity.
Qed.

Lemma exit_code_table_witness :
  exit_code sample_env 1 bogus_category ["a.avi"] sample_state = 3%Z
  /\ exit_code sample_env 1 sample_options ["broken.avi"] sample_state = 1%Z.
Proof.
  split.
  - apply (exit_code_table sample_env 1 bogus_category ["a.avi"] sample_state);
      [discriminate | reflexivity].
  - apply (exit_code_table sample_env 1 sample_options ["broken.avi"]
             sample_state) with (cls := OtherException "HttpError");
      [discriminate | reflexivity | reflexivity].
Defined.

Lemma missing_title_raises_first_witness :
  run_main sample_env Stdout default_options ["a.avi"] sample_state
  = (Raise (Exception OptionsMissing "Some required option are missing: title"),
     {| world := tt; log := [PrintUsage];
        bar := {| has_next_update := false; maxval := None |} |}).
Proof.
  apply (missing_title_raises_first sample_env Stdout default_options
           ["a.avi"] sample_state).
  reflexivity.
Defined.

Lemma failed_upload_stops_run_witness :
  exists e st_f,
    main sample_env sample_options ["a.avi"; "broken.avi"; "c.avi"]
      sample_state = (Raise e, st_f)
    /\ (exists k, (k <= 2)%nat
                  /\ map fst (uploads (log st_f))
                     = (map fst (uploads (log sample_state))
                        ++ take k ["a.avi"; "broken.avi"; "c.avi"])%list)
    /\ exit_code sample_env 1 sample_options
         ["a.avi"; "broken.avi"; "c.avi"] sample_state
       = match dict_get EXIT_CODES (exc_class e) with
         | Some code => code
         | None => 1%Z
         end.
Proof.
  eexists _, _.
  eapply (failed_upload_stops_run sample_env 1 sample_options
            ["a.avi"; "broken.avi"; "c.avi"] sample_state tt _ 1 "broken.avi").
  - reflexivity.
  - reflexivity.
  - reflexivity.
  - vm_compute. reflexivity.
  - vm_compute. reflexivity.
Defined.

(** C8 does not hold as stated: when the vendor upload raises, here for
    [broken.avi] after one callback, the exception leaves [upload_video]
    and [finish] is not invoked. *)
Lemma failed_transfer_is_not_finished :
  let run := upload_video sample_env tt sample_options "broken.avi" 1 0
               sample_state in
  raised (fst run) = Some (OtherException "HttpError")
  /\ length (List.filter is_upload (log (snd run))) = 1%nat
  /\ length (List.filter is_callback (log (snd run))) = 1%nat
  /\ length (List.filter is_finish (log (snd run))) = 0%nat.
Proof. vm_compute. repeat split. Qed.

Lemma finish_once_after_callbacks_witness :
  exists body p,
    body_for sample_env sample_options 1 0 body
    /\ fst (get_progress_info sample_env (progress_type sample_options)
              sample_state) = Ok p
    /\ log (snd (get_progress_info sample_env (progress_type sample_options)
                   sample_state)) = log sample_state
    /\ upload_video sample_env tt sample_options "a.avi" 1 0 sample_state
       = transfer sample_env tt "a.avi" body p
           (snd (get_progress_info sample_env (progress_type sample_options)
                   sample_state)).
Proof.
  destruct (finish_once_after_callbacks sample_env tt sample_options "a.avi"
              1 0 sample_state) as (_ & H & _ & _).
  apply H. vm_compute. reflexivity.
Defined.

Lemma console_callback_needs_positive_size_witness :
  raised (fst (console_callback sample_env 0 50 sample_state))
  = Some ZeroDivisionError
  /\ raised (fst (console_callback sample_env 100 50 sample_state)) = None.
Proof.
  destruct (console_callback_needs_positive_size sample_env 0 50 sample_state)
    as (_ & H0).
  destruct (console_callback_needs_positive_size sample_env 100 50
              sample_state) as (_ & Hpos).
  destruct H0 as (H0 & _ & _); [vm_compute; reflexivity ..|].
  destruct Hpos as (_ & Hpos & _); [vm_compute; reflexivity ..|].
  rewrite (H0 eq_refl), (Hpos eq_refl). split; reflexivity.
Defined.

(** C9 does not hold as stated: a [completed] beyond the floats, here
    [2 ** 1024], raises [OverflowError] in [completed * 100.0], before the
    division: at [total_size = 0] the exception is not the division's, and
    at [total_size = 1], which is positive, the callback still raises. *)
Lemma huge_count_overflows_before_division :
  raised (fst (console_callback sample_env 0 (2 ^ 1024) sample_state))
  = Some OverflowError
  /\ raised (fst (console_callback sample_env 0 (2 ^ 1024) sample_state))
     <> Some ZeroDivisionError
  /\ raised (fst (console_callback sample_env 1 (2 ^ 1024) sample_state))
     = Some OverflowError.
Proof.
  assert (Py.fits_float (2 ^ 1024) = false) as H by (vm_compute; reflexivity).
  unfold console_callback. rewrite H. cbn [negb raise fst raised exc_class].
  repeat split. discriminate.
Qed.

(** ** Further properties of [main.py] *)

Open Scope list_scope.

Section MoreFacts.

Context {World Youtube : Type}.
Variable env : environment World Youtube.

Implicit Types (st : state World) (l : list event).

(** *** [get_category_id] and the request body *)

Lemma get_category_id_cases category :
  match get_category_id env category with
  | Ok None => Py.truthy category = false
  | Ok (Some s) =>
      exists name id,
        category = Some name /\ name <> ""%string
        /\ IDS env !! name = Some id /\ s = Py.str_of_nat id
  | Raise e =>
      exists name,
        category = Some name /\ name <> ""%string /\ IDS env !! name = None
        /\ e = Exception InvalidCategory (name +:+ " is not a valid category")
  end.
Proof.
  unfold get_category_id. destruct category as [name|]; simpl; [|reflexivity].
  destruct (String.eqb_spec name ""); simpl; [reflexivity|].
  destruct (IDS env !! name) as [id|] eqn:E; eauto 8.
Qed.

(** X1: Every request body that a run submits has the privacy status of
    [--privacy] and, for its category, either nothing, when [--category] is
    absent or empty, or the decimal text of the identifier that the table
    gives the category name, which is then not empty; no body is submitted
    for a name that the table does not have. *)
Theorem submitted_category_and_privacy output options args st path body :
  log st = [] ->
  Upload path body ∈ log (snd (run_main env output options args st)) ->
  status_privacyStatus body = privacy options
  /\ match snippet_categoryId (body_snippet body) with
     | None => Py.truthy (category options) = false
     | Some s =>
         exists name id,
           category options = Some name /\ name <> ""%string
           /\ IDS env !! name = Some id /\ s = Py.str_of_nat id
     end.
Proof.
  intros Hst H.
  destruct (run_upload_body env _ _ _ _ _ _ Hst H) as (j & _ & _ & _ & Hc & Hp).
  split; [exact Hp|].
  pose proof (get_category_id_cases (category options)) as Hcases.
  rewrite Hc in Hcases. exact Hcases.
Qed.

(** *** The request for a resource (lines 131-145) *)

Lemma or_else_empty o d : Py.or_else o d = ""%string -> d = ""%string.
Proof.
  destruct o as [s|]; simpl; [|auto].
  destruct (String.eqb_spec s ""); [auto | contradiction].
Qed.

Lemma path_join_dotfile a c b : Py.path_join a (String c b) <> ""%string.
Proof.
  unfold Py.path_join.
  assert (forall x, x +:+ String c b <> ""%string) as Happ.
  { intros [|? ?]; discriminate. }
  assert (forall x, x +:+ "/" +:+ String c b <> ""%string) as Happ'.
  { intros [|? ?]; discriminate. }
  destruct (Ascii.eqb_spec c "/") as [->|Hc].
  - discriminate.
  - assert (match c with
            | "/"%char => String c b
            | _ => if String.eqb a "" || Py.ends_with_slash a
                   then a +:+ String c b else a +:+ "/" +:+ String c b
            end <> ""%string) as H.
    { destruct c as [[] [] [] [] [] [] [] []]; try discriminate;
        destruct (String.eqb a "" || Py.ends_with_slash a); auto. }
    exact H.
Qed.

(** X2: Whatever the options and the environment, the request that [run_main]
    makes of [get_resource] names a client-secrets file and a credentials
    file that are not the empty string, and a CA bundle that is [None]
    rather than empty; an explicit [--client-secrets] or
    [--credentials-file] wins over the defaults. *)
Theorem auth_request_paths options default_client_secrets :
  let r := auth_request_of env options default_client_secrets in
  req_client_secrets r <> ""%string
  /\ req_credentials r <> ""%string
  /\ req_ca_certs_file r <> Some ""%string
  /\ (forall s, client_secrets options = Some s -> s <> ""%string ->
                req_client_secrets r = s)
  /\ (forall s, credentials_file options = Some s -> s <> ""%string ->
                req_credentials r = s).
Proof.
  intros r. subst r. unfold auth_request_of.
  cbn [req_client_secrets req_credentials req_ca_certs_file].
  split; [|split; [|split; [|split]]].
  - intros H. apply or_else_empty, or_else_empty in H.
    revert H. apply path_join_dotfile.
  - intros H. apply or_else_empty in H. revert H. apply path_join_dotfile.
  - destruct (ca_certs_file options) as [s|]; simpl; [|discriminate].
    destruct (String.eqb_spec s ""); simpl; [discriminate | congruence].
  - intros s -> Hs. simpl. now destruct (String.eqb_spec s "").
  - intros s -> Hs. simpl. now destruct (String.eqb_spec s "").
Qed.

(** X3: When [get_resource] gives no resource, or raises, [run_main] raises
    [AuthenticationError], or that exception, right after the request: the
    request is the only event, nothing is printed and nothing uploaded. *)
Theorem no_resource_no_upload output options args st :
  Py.truthy (title options) = true ->
  let request := first_request env options (world st) in
  let answer := get_resource env request (world st) in
  (forall youtube, fst answer <> Ok (Some youtube)) ->
  run_main env output options args st
  = (match fst answer with
     | Raise e => Raise e
     | Ok _ =>
         Raise (Exception AuthenticationError "Cannot get youtube resource")
     end,
     {| world := snd answer; log := log st ++ [GetResource request];
        bar := bar st |}).
Proof.
  intros Ht request answer Hno. unfold run_main.
  rewrite missing_options_title, Ht.
  unfold mbind at 1, M_bind at 1, read_world at 1.
  fold (first_request env options (world st)). fold request.
  unfold mbind, M_bind, get_resource_call. fold answer.
  destruct answer as [[[y|]|e] w] eqn:E; cbn [fst snd] in *.
  - now elim (Hno y).
  - reflexivity.
  - reflexivity.
Qed.

(** *** The exit-code table *)

(** X4: Every code of the table lies between 2 and 6, so no listed exception
    is reported as success; a class has a code exactly when the table names
    it, and the exceptions that [main.py] raises through its own
    expressions, [ValueError] and [ZeroDivisionError], are not named. *)
Theorem exit_codes_range cls :
  match dict_get EXIT_CODES cls with
  | Some code => (2 <= code <= 6)%Z /\ In cls (map fst EXIT_CODES)
  | None => ~ In cls (map fst EXIT_CODES)
  end
  /\ dict_get EXIT_CODES ValueError = None
  /\ dict_get EXIT_CODES ZeroDivisionError = None.
Proof.
  split; [|split; reflexivity].
  destruct cls; cbn; try (split; [lia | tauto]);
    intros H; repeat (destruct H as [H|H]; [discriminate|]); exact H.
Qed.

(** *** One [upload_video]: validation comes first *)

Lemma upload_video_post_ok options video_path total_videos index video_id l :
  upload_video_post env options video_path total_videos index
    (Ok video_id) l ->
  exists body cbs tail,
    body_for env options total_videos index body
    /\ Forall (fun e => transfer_event e = true) cbs
    /\ Forall (fun e => closing_event e = true) tail
    /\ l = start_events video_path body ++ cbs ++ ProgressFinish :: tail.
Proof.
  intros [[_ Hr] | (body & cbs & Hbody & Hcbs & H)]; [now elim Hr|].
  destruct H as [[_ Hr] | (tail & -> & Htail)]; [now elim Hr|].
  exists body, cbs, tail. auto.
Qed.

(** X5: [upload_video] prints its start line and calls the vendor upload
    exactly when the description decodes, the title formats, the category
    resolves and the location parses; when one of them fails it raises
    without printing, without touching the world: nothing was sent. *)
Theorem upload_video_validates_first youtube options video_path
    total_videos index st :
  let run := upload_video env youtube options video_path total_videos
               index st in
  if metadata_valid env options total_videos index
  then exists body rest,
         body_for env options total_videos index body
         /\ log (snd run) = log st ++ start_events video_path body ++ rest
  else raised (fst run) <> None
       /\ log (snd run) = log st
       /\ world (snd run) = world st.
Proof.
  intros run. subst run.
  destruct (upload_video env youtube options video_path total_videos index st)
    as [r st'] eqn:E.
  cbn [fst snd]. unfold metadata_valid. unfold upload_video in E.
  unfold mbind at 1, M_bind at 1, lift at 1 in E.
  destruct (string_escape_decode env _) as [descr|e]; cbn [is_ok andb];
    [|injection E as <- <-; repeat split; discriminate].
  unfold mbind at 1, M_bind at 1, lift at 1 in E.
  destruct (complete_title env options total_videos index) as [ct|e] eqn:Et;
    cbn [is_ok andb]; [|injection E as <- <-; repeat split; discriminate].
  unfold mbind at 1, M_bind at 1 in E.
  destruct (get_progress_info_log env (progress_type options) st)
    as (Hlog & Hworld & p & Hp).
  destruct (get_progress_info env (progress_type options) st) as [rp st1].
  cbn [fst snd] in Hlog, Hworld, Hp. subst rp.
  unfold mbind at 1, M_bind at 1, lift at 1 in E.
  destruct (get_category_id env (category options)) as [cid|e] eqn:Ec;
    cbn [is_ok andb];
    [|injection E as <- <-; repeat split; [discriminate|assumption..]].
  unfold mbind at 1, M_bind at 1, lift at 1 in E.
  destruct (string_to_dict env (location options)) as [loc|e];
    cbn [is_ok andb];
    [|injection E as <- <-; repeat split; [discriminate|assumption..]].
  set (body := RequestBody _ _ _) in E.
  change (transfer env youtube video_path body p st1 = (r, st')) in E.
  destruct (transfer_log env youtube video_path body p st1)
    as (l & El & cbs & _ & H).
  rewrite E in El, H. cbn [fst snd] in El, H.
  exists body. rewrite El, Hlog.
  assert (body_for env options total_videos index body) as Hbody.
  { subst body. repeat split; cbn; auto. }
  destruct H as [[-> _] | (tail & -> & _)]; eexists; split; eauto.
Qed.

(** *** The loop of [run_main] *)

(** A property of what the loop appends holds when it holds of the empty
    loop, of a file whose [upload_video] raises, and of a file whose
    [upload_video] returns followed by its URL line and the rest. *)
Lemma upload_loop_rule youtube options output total_videos
    (I : nat -> list string -> outcome unit -> list event -> Prop) :
  (forall index, I index [] (Ok tt) []) ->
  (forall index video_path rest e l1,
      upload_video_post env options video_path total_videos index
        (Raise e) l1 ->
      I index (video_path :: rest) (Raise e) l1) ->
  (forall index video_path rest video_id l1 r l2,
      upload_video_post env options video_path total_videos index
        (Ok video_id) l1 ->
      I (S index) rest r l2 ->
      I index (video_path :: rest) r
        (l1 ++ [Write output (video_url_line video_id); Flush output] ++ l2)) ->
  forall paths index,
    grows (upload_loop env youtube options output total_videos index paths)
      (I index paths).
Proof.
  intros Hnil Hraise Hok paths.
  induction paths as [|video_path rest IH]; intros index st.
  - exists []. rewrite app_nil_r. split; [reflexivity | apply Hnil].
  - destruct (upload_loop env youtube options output total_videos index
                (video_path :: rest) st) as [r st'] eqn:E.
    cbn [fst snd]. cbn [upload_loop] in E.
    unfold mbind at 1, M_bind at 1 in E.
    destruct (upload_video_log env youtube options video_path total_videos
                index st) as (l1 & El1 & Hpost).
    destruct (upload_video env youtube options video_path total_videos
                index st) as [[video_id|e] st1]; cbn [fst snd] in El1, Hpost.
    + unfold write, flush, mbind, M_bind in E.
      cbn [emit_event world log bar] in E.
      match type of E with
      | upload_loop _ _ _ _ _ _ _ ?s = _ => set (st2 := s) in E
      end.
      destruct (IH (S index) st2) as (l2 & El2 & Hl2).
      rewrite E in El2, Hl2. cbn [fst snd] in El2, Hl2.
      exists (l1 ++ [Write output (video_url_line video_id); Flush output]
              ++ l2).
      split; [|now apply Hok].
      rewrite El2. subst st2. cbn [log]. rewrite El1.
      unfold video_url_line. now rewrite <- !app_assoc.
    + injection E as <- <-. exists l1. split; [exact El1 | now apply Hraise].
Qed.

(** The same for [run_main] with a title: the request for a resource comes
    first, then what the loop appends. *)
Lemma run_main_rule output options args
    (I : nat -> list string -> outcome unit -> list event -> Prop) st :
  Py.truthy (title options) = true ->
  (forall youtube,
      grows (upload_loop env youtube options output (length args) 0 args)
        (I 0%nat args)) ->
  exists l,
    log (snd (run_main env output options args st))
    = log st ++ GetResource (first_request env options (world st)) :: l
    /\ (l = [] /\ raised (fst (run_main env output options args st)) <> None
        \/ I 0%nat args (fst (run_main env output options args st)) l).
Proof.
  intros Ht Hloop.
  destruct (run_main env output options args st) as [r st'] eqn:E.
  cbn [fst snd]. unfold run_main in E.
  rewrite missing_options_title, Ht in E.
  unfold mbind at 1, M_bind at 1, read_world at 1 in E.
  fold (first_request env options (world st)) in E.
  unfold mbind at 1, M_bind at 1, get_resource_call at 1 in E.
  destruct (get_resource env _ (world st)) as [[[y|]|e] w].
  - match type of E with
    | upload_loop _ _ _ _ _ _ _ ?s = _ => set (st1 := s) in E
    end.
    destruct (Hloop y st1) as (l & El & Hl).
    rewrite E in El, Hl. cbn [fst snd] in El, Hl.
    exists l. split; [|now right].
    rewrite El. subst st1. cbn [log]. now rewrite <- app_assoc.
  - injection E as <- <-. exists []. split; [reflexivity|].
    left. split; [reflexivity | discriminate].
  - injection E as <- <-. exists []. split; [reflexivity|].
    left. split; [reflexivity | discriminate].
Qed.

Lemma filter_none (P Q : event -> bool) l :
  (forall e, P e = true -> Q e = false) ->
  Forall (fun e => P e = true) l -> List.filter Q l = [].
Proof.
  intros HPQ Hl. induction Hl as [|e l He _ IH]; [reflexivity|].
  cbn. now rewrite (HPQ e He).
Qed.

Lemma transfer_is_upload_phase l :
  Forall (fun e => transfer_event e = true) l ->
  Forall (fun e => upload_phase_event e = true) l.
Proof.
  intros H. eapply Forall_impl; [exact H|].
  intros [| |[]|[]| | |[]|]; simpl; congruence.
Qed.

Lemma closing_is_upload_phase l :
  Forall (fun e => closing_event e = true) l ->
  Forall (fun e => upload_phase_event e = true) l.
Proof.
  intros H. eapply Forall_impl; [exact H|].
  intros [| | | | | |[]|]; simpl; congruence.
Qed.

Lemma upload_video_post_phase options video_path total_videos index r l :
  upload_video_post env options video_path total_videos index r l ->
  Forall (fun e => upload_phase_event e = true) l.
Proof.
  intros [[-> _] | (body & cbs & _ & Hcbs & H)]; [constructor|].
  apply transfer_is_upload_phase in Hcbs.
  destruct H as [[-> _] | (tail & -> & Htail)].
  - apply Forall_app. split; [repeat constructor | exact Hcbs].
  - apply closing_is_upload_phase in Htail.
    apply Forall_app. split; [repeat constructor|].
    apply Forall_app. split; [exact Hcbs|]. now constructor.
Qed.

(** X6: A run with a title asks for a resource exactly once, before anything
    else: the request of lines 131-145 is the first event and no later
    event is a request or a usage message, however many files follow. *)
Theorem authenticates_once_first output options args st :
  Py.truthy (title options) = true ->
  exists l,
    log (snd (run_main env output options args st))
    = log st ++ GetResource (first_request env options (world st)) :: l
    /\ Forall (fun e => upload_phase_event e = true) l.
Proof.
  intros Ht.
  destruct (run_main_rule output options args
              (fun _ _ _ l => Forall (fun e => upload_phase_event e = true) l)
              st Ht) as (l & El & H).
  - intros youtube.
    apply (upload_loop_rule youtube options output (length args)
             (fun _ _ _ l => Forall (fun e => upload_phase_event e = true) l)).
    + constructor.
    + intros index video_path rest e l1 H1.
      eapply upload_video_post_phase, H1.
    + intros index video_path rest video_id l1 r l2 H1 H2.
      apply Forall_app. split; [eapply upload_video_post_phase, H1|].
      apply Forall_app. split; [|exact H2].
      destruct output; repeat constructor.
  - exists l. split; [exact El|]. destruct H as [[-> _]|H]; [constructor|auto].
Qed.

Lemma loop_uploads_prefix options total_videos index paths r l :
  loop_uploads env options total_videos index paths r l ->
  map fst (uploads l) = take (length (uploads l)) paths.
Proof.
  intros (Hlen & _ & Hnth). apply list_eq. intros j.
  rewrite list_lookup_fmap.
  destruct (uploads l !! j) as [[path body]|] eqn:E; simpl.
  - destruct (Hnth j path body E) as [Hj _].
    rewrite lookup_take_lt; [now symmetry|].
    now apply lookup_lt_Some in E.
  - symmetry. apply lookup_take_ge. now apply lookup_ge_None in E.
Qed.

(** X7: In every run, whatever its outcome, the files that were submitted to
    the vendor upload are the first [k] input files, in their order, each
    once; when the run returns they are all of them. *)
Theorem uploads_are_a_prefix output options args st :
  let run := run_main env output options args st in
  exists k,
    k <= length args
    /\ map fst (uploads (log (snd run)))
       = map fst (uploads (log st)) ++ take k args
    /\ (fst run = Ok tt -> k = length args).
Proof.
  intros run.
  destruct (run_main_log env output options args st) as (l & El & Hl).
  fold run in El, Hl. exists (length (uploads l)).
  pose proof (loop_uploads_prefix _ _ _ _ _ _ Hl) as Hprefix.
  destruct Hl as (Hlen & Hok & _).
  split; [exact Hlen|]. split; [|exact Hok].
  now rewrite El, uploads_app, map_app, Hprefix.
Qed.

Lemma count_app (P : event -> bool) l1 l2 :
  length (List.filter P (l1 ++ l2))
  = length (List.filter P l1) + length (List.filter P l2).
Proof. now rewrite List.filter_app, length_app. Qed.

Lemma transfer_counts l :
  Forall (fun e => transfer_event e = true) l ->
  List.filter is_upload l = [] /\ List.filter is_finish l = [].
Proof.
  intros H. split; (eapply filter_none; [|exact H]);
    intros [| |[]|[]| | |[]|]; simpl; congruence.
Qed.

Lemma closing_counts l :
  Forall (fun e => closing_event e = true) l ->
  List.filter is_upload l = [] /\ List.filter is_finish l = [].
Proof.
  intros H. split; (eapply filter_none; [|exact H]);
    intros [| | | | | |[]|]; simpl; congruence.
Qed.

Lemma upload_video_post_counts options video_path total_videos index r l :
  upload_video_post env options video_path total_videos index r l ->
  let uploaded := length (List.filter is_upload l) in
  let finished := length (List.filter is_finish l) in
  finished <= uploaded <= 1
  /\ (raised r = None -> finished = 1).
Proof.
  intros [[-> Hr] | (body & cbs & _ & Hcbs & H)]; cbn zeta.
  - cbn. split; [lia | intros; contradiction].
  - destruct (transfer_counts cbs Hcbs) as [Hu Hf].
    destruct H as [[-> Hr] | (tail & -> & Htail)].
    + rewrite !count_app, Hu, Hf. cbn. split; [lia | intros; contradiction].
    + destruct (closing_counts tail Htail) as [Hu' Hf'].
      change (ProgressFinish :: tail) with ([ProgressFinish] ++ tail).
      rewrite !count_app, Hu, Hf, Hu', Hf'. cbn. split; [lia | reflexivity].
Qed.

(** X8: In every run the reporter's [finish] is invoked at most once per
    vendor upload and never before it: the finishes never outnumber the
    uploads, at most one upload, the one that failed, goes without, and in
    a run that returns both numbers are the number of input files. *)
Theorem finishes_match_uploads output options args st :
  let run := run_main env output options args st in
  exists l,
    log (snd run) = log st ++ l
    /\ let uploaded := length (List.filter is_upload l) in
       let finished := length (List.filter is_finish l) in
       finished <= uploaded <= length args
       /\ uploaded <= finished + 1
       /\ (fst run = Ok tt ->
           finished = length args /\ uploaded = length args).
Proof.
  intros run. subst run.
  set (I := fun (_ : nat) (paths : list string) (r : outcome unit)
                (l : list event) =>
              let uploaded := length (List.filter is_upload l) in
              let finished := length (List.filter is_finish l) in
              finished <= uploaded <= length paths
              /\ uploaded <= finished + 1
              /\ (r = Ok tt ->
                  finished = length paths /\ uploaded = length paths)).
  assert (forall youtube total_videos paths index,
             grows (upload_loop env youtube options output total_videos
                      index paths) (I index paths)) as Hloop.
  { intros youtube total_videos.
    apply (upload_loop_rule youtube options output total_videos I);
      unfold I; cbn zeta.
    - intros _. cbn. lia.
    - intros index video_path rest e l1 H1.
      apply upload_video_post_counts in H1. cbn zeta in H1. cbn [length].
      split; [lia|]. split; [lia | discriminate].
    - intros index video_path rest video_id l1 r l2 H1 H2.
      apply upload_video_post_counts in H1. cbn zeta in H1.
      destruct H1 as [H1 H1']. specialize (H1' eq_refl).
      rewrite !count_app. cbn [length] in *.
      assert (forall P, (P = is_upload \/ P = is_finish) ->
                 length (List.filter P
                           [Write output (video_url_line video_id);
                            Flush output]) = 0) as Hurl.
      { intros P [-> | ->]; reflexivity. }
      rewrite !Hurl by auto. destruct H2 as (Ha & Hb & Hc).
      split; [lia|]. split; [lia|]. intros Hr. specialize (Hc Hr). lia. }
  destruct (run_main env output options args st) as [r st'] eqn:E.
  cbn [fst snd]. unfold run_main in E.
  destruct (missing_options options) as [|m ms].
  - unfold mbind at 1, M_bind at 1, read_world at 1 in E.
    unfold mbind at 1, M_bind at 1, get_resource_call at 1 in E.
    destruct (get_resource env _ (world st)) as [[[y|]|e] w].
    + match type of E with
      | upload_loop _ _ _ _ _ _ _ ?s = _ => set (st1 := s) in E
      end.
      destruct (Hloop y (length args) args 0 st1) as (l & El & Hl).
      rewrite E in El, Hl. cbn [fst snd] in El, Hl.
      eexists (_ :: l). split.
      { rewrite El. subst st1. cbn [log]. now rewrite <- app_assoc. }
      unfold I in Hl. cbn zeta in Hl |- *. cbn [List.filter is_upload is_finish].
      exact Hl.
    + injection E as <- <-. eexists [_]. split; [reflexivity|].
      cbn. split; [lia|]. split; [lia | discriminate].
    + injection E as <- <-. eexists [_]. split; [reflexivity|].
      cbn. split; [lia|]. split; [lia | discriminate].
  - injection E as <- <-. eexists [_]. split; [reflexivity|].
    cbn. split; [lia|]. split; [lia | discriminate].
Qed.

(** *** The [output] stream of [run_main] *)





(** *** The reporters at work *)

Lemma bar_callback_started st t c :
  has_next_update (bar st) = true ->
  (forall m w, fst (progressbar_call env m w) = None) ->
  exists st',
    bar_callback env t c st = (Ok tt, st')
    /\ log st' = log st ++ [ProgressBarCall (BarUpdate c)]
    /\ bar st' = bar st.
Proof.
  intros Hs Hlib. unfold bar_callback, mbind, M_bind, get_bar, bar_call.
  rewrite Hs. cbn [mret M_ret].
  pose proof (Hlib (BarUpdate c) (world st)) as H.
  destruct (progressbar_call env (BarUpdate c) (world st)) as [r w].
  cbn [fst] in H. subst r. eexists. split; [reflexivity|]. cbn. auto.
Qed.

Lemma bar_callback_fresh st t c :
  has_next_update (bar st) = false ->
  (forall m w, fst (progressbar_call env m w) = None) ->
  exists st',
    bar_callback env t c st = (Ok tt, st')
    /\ log st' = log st ++ [ProgressBarCall (BarStart t);
                            ProgressBarCall (BarUpdate c)]
    /\ bar st' = {| has_next_update := started_bar_has_next_update env;
                    maxval := Some t |}.
Proof.
  intros Hs Hlib.
  unfold bar_callback, mbind, M_bind, get_bar, set_bar, bar_call.
  rewrite Hs. cbn [world log bar].
  pose proof (Hlib (BarStart t) (world st)) as H1.
  destruct (progressbar_call env (BarStart t) (world st)) as [r1 w1].
  cbn [fst] in H1. subst r1. cbn [world log bar].
  pose proof (Hlib (BarUpdate c) w1) as H2.
  destruct (progressbar_call env (BarUpdate c) w1) as [r2 w2].
  cbn [fst] in H2. subst r2. eexists. split; [reflexivity|]. cbn.
  now rewrite <- app_assoc.
Qed.

Lemma bar_callbacks_started rs :
  (forall m w, fst (progressbar_call env m w) = None) ->
  forall st,
    has_next_update (bar st) = true ->
    exists st',
      run_callbacks (bar_callback env) rs st = (Ok tt, st')
      /\ log st' = log st ++ flat_map bar_next_report rs
      /\ bar st' = bar st.
Proof.
  intros Hlib. induction rs as [|[t c] rs IH]; intros st Hs.
  - exists st. cbn. now rewrite app_nil_r.
  - cbn [run_callbacks flat_map]. unfold mbind, M_bind. cbn [emit_event].
    set (st1 := {| world := world st;
                   log := log st ++ [ProgressCallback t c];
                   bar := bar st |}).
    destruct (bar_callback_started st1 t c Hs Hlib) as (st2 & E & Hl & Hb).
    rewrite E.
    destruct (IH st2) as (st3 & E' & Hl' & Hb'); [now rewrite Hb|].
    rewrite E'. exists st3. split; [reflexivity|].
    split; [|now rewrite Hb', Hb].
    rewrite Hl', Hl. subst st1. cbn [log bar_next_report fst snd].
    now rewrite <- !app_assoc.
Qed.

(** X10: With the bar reporter, a library that does not raise and whose
    bars have [next_update] once started, what the callback does on the
    status reports of an upload depends on the bar that the library builds.
    If a new bar has no [next_update], as the code expects, the first
    report sets the maximum to its total size and starts the bar, once,
    before the first update, and every report updates the bar with its
    completed count. If a new bar has the attribute already, the bar is
    never started and its maximum never set: every report only updates. *)
Theorem bar_starts_once st t c rs :
  progressbar env = true ->
  started_bar_has_next_update env = true ->
  (forall m w, fst (progressbar_call env m w) = None) ->
  let built := get_progress_info env "progressbar" st in
  let run := run_callbacks (bar_callback env) ((t, c) :: rs) (snd built) in
  fst built = Ok BarProgress
  /\ fst run = Ok tt
  /\ log (snd run)
     = log st
       ++ (if new_bar_has_next_update env
           then flat_map bar_next_report ((t, c) :: rs)
           else bar_first_report (t, c) ++ flat_map bar_next_report rs)
  /\ bar (snd run)
     = {| has_next_update := true;
          maxval := if new_bar_has_next_update env then None else Some t |}.
Proof.
  intros Hbar Hstarted Hlib built run.
  assert (built = (Ok BarProgress,
                   {| world := world st; log := log st;
                      bar := {| has_next_update := new_bar_has_next_update env;
                                maxval := None |} |})) as Hbuilt.
  { subst built. unfold get_progress_info.
    change (String.eqb "progressbar" "progressbar") with true.
    now rewrite Hbar. }
  subst run. rewrite Hbuilt. cbn [fst snd]. split; [reflexivity|].
  destruct (new_bar_has_next_update env) eqn:Hnew.
  - match goal with
    | |- context [run_callbacks (bar_callback env) _ ?s] => set (st0 := s)
    end.
    destruct (bar_callbacks_started ((t, c) :: rs) Hlib st0 eq_refl)
      as (st3 & E & Hl & Hb).
    rewrite E. cbn [fst snd]. split; [reflexivity|].
    split; [exact Hl | exact Hb].
  - cbn [run_callbacks]. unfold mbind, M_bind.
    cbn [emit_event world log bar].
    match goal with
    | |- context [bar_callback env t c ?s] => set (st1 := s)
    end.
    destruct (bar_callback_fresh st1 t c eq_refl Hlib) as (st2 & E & Hl & Hb).
    rewrite E. rewrite Hstarted in Hb.
    destruct (bar_callbacks_started rs Hlib st2) as (st3 & E' & Hl' & Hb');
      [now rewrite Hb|].
    rewrite E'. cbn [fst snd]. split; [reflexivity|].
    split; [|now rewrite Hb', Hb].
    rewrite Hl', Hl. subst st1. cbn [log bar_first_report fst snd].
    now rewrite <- !app_assoc.
Qed.

(** X11: With the console reporter, status reports whose numbers convert
    to floats are written one line each, in order and flushed, as long as
    their total size is not zero; the first report with a zero total
    raises [ZeroDivisionError] after the lines of the reports before it,
    and nothing of the reports after it is written. *)
Theorem console_reports_until_zero pre st :
  Forall (fun r : Z * Z => fst r <> 0%Z
                           /\ Py.fits_float (fst r) = true
                           /\ Py.fits_float (snd r) = true) pre ->
  let st_pre := {| world := world st;
                   log := log st ++ flat_map (console_report env) pre;
                   bar := bar st |} in
  run_callbacks (console_callback env) pre st = (Ok tt, st_pre)
  /\ forall completed post,
       Py.fits_float completed = true ->
       run_callbacks (console_callback env)
         (pre ++ (0%Z, completed) :: post) st
       = (Raise (Exception ZeroDivisionError "float division by zero"),
          {| world := world st;
             log := log st ++ flat_map (console_report env) pre
                    ++ [ProgressCallback 0 completed];
             bar := bar st |}).
Proof.
  intros Hpre. revert st.
  induction Hpre as [|[t c] pre Ht _ IH]; intros st st_pre; subst st_pre.
  - cbn [flat_map run_callbacks app]. rewrite !app_nil_r.
    split; [now destruct st|]. intros completed post Hc.
    unfold mbind, M_bind. cbn [emit_event]. unfold console_callback.
    rewrite Hc. change (Py.fits_float 0) with true. reflexivity.
  - cbn [fst snd] in Ht. destruct Ht as (Ht & Hft & Hfc).
    cbn [flat_map app].
    set (st2 := {| world := world st;
                   log := log st ++ console_report env (t, c);
                   bar := bar st |}).
    assert (forall rest,
               run_callbacks (console_callback env) ((t, c) :: rest) st
               = run_callbacks (console_callback env) rest st2) as Hstep.
    { intros rest. cbn [run_callbacks]. unfold mbind, M_bind.
      cbn [emit_event].
      assert (forall s,
                 console_callback env t c s
                 = (Ok tt,
                    {| world := world s;
                       log := (log s ++ [Write Stdout
                                           (format_percent env t c)])
                              ++ [Flush Stdout];
                       bar := bar s |})) as Hcb.
      { intros s. unfold console_callback. rewrite Hft, Hfc.
        destruct (Z.eqb_spec t 0); [contradiction | reflexivity]. }
      rewrite Hcb. cbn [world log bar]. f_equal. subst st2. f_equal.
      cbn [console_report fst snd]. now rewrite <- !app_assoc. }
    destruct (IH st2) as [IH1 IH2]. rewrite !Hstep, IH1.
    split.
    + subst st2. cbn [world log bar]. now rewrite <- !app_assoc.
    + intros completed post Hc. rewrite Hstep, (IH2 _ _ Hc). subst st2.
      cbn [world log bar]. now rewrite <- !app_assoc.
Qed.

(** *** The tags of the request body *)

Lemma split_pieces sep s : Forall (fun w => Py.count sep w = 0) (Py.split sep s).
Proof.
  induction s as [|c s IH]; cbn [Py.split]; [repeat constructor|].
  destruct (Ascii.eqb c sep) eqn:Ec; [now constructor|].
  destruct (Py.split sep s) as [|w ws]; [repeat constructor; cbn; now rewrite Ec|].
  apply Forall_cons in IH as [Hw Hws]. constructor; [|exact Hws].
  cbn. now rewrite Ec, Hw.
Qed.

Lemma count_lstrip sep s : Py.count sep s = 0 -> Py.count sep (Py.lstrip s) = 0.
Proof.
  induction s as [|c s IH]; [auto|]. cbn [Py.lstrip].
  destruct (Py.is_space c); [|auto]. cbn. intros H. apply IH. lia.
Qed.

Lemma count_rstrip sep s : Py.count sep s = 0 -> Py.count sep (Py.rstrip s) = 0.
Proof.
  induction s as [|c s IH]; [auto|]. cbn [Py.rstrip Py.count]. intros H.
  assert (Py.count sep (Py.rstrip s) = 0) as Hs by (apply IH; lia).
  destruct (Py.rstrip s) as [|d r].
  - destruct (Py.is_space c); cbn; lia.
  - cbn [Py.count] in *. lia.
Qed.

Lemma rstrip_cons c s :
  Py.is_space c = false -> Py.rstrip (String c s) = String c (Py.rstrip s).
Proof.
  intros Hc. cbn [Py.rstrip]. rewrite Hc. now destruct (Py.rstrip s).
Qed.

Lemma rstrip_rstrip s : Py.rstrip (Py.rstrip s) = Py.rstrip s.
Proof.
  induction s as [|c s IH]; [reflexivity|]. cbn [Py.rstrip].
  destruct (Py.rstrip s) as [|d r] eqn:E.
  - destruct (Py.is_space c) eqn:Ec; [reflexivity|].
    cbn [Py.rstrip]. now rewrite Ec.
  - cbn [Py.rstrip]. cbn [Py.rstrip] in IH. rewrite IH. reflexivity.
Qed.

Lemma lstrip_head s :
  Py.lstrip s = ""%string
  \/ exists c r, Py.lstrip s = String c r /\ Py.is_space c = false.
Proof.
  induction s as [|c s IH]; [now left|]. cbn [Py.lstrip].
  destruct (Py.is_space c) eqn:Ec; [exact IH | right; eauto].
Qed.

Lemma strip_strip s : Py.strip (Py.strip s) = Py.strip s.
Proof.
  unfold Py.strip. destruct (lstrip_head s) as [-> | (c & r & -> & Hc)].
  - reflexivity.
  - rewrite (rstrip_cons c r Hc). cbn [Py.lstrip]. rewrite Hc.
    rewrite <- (rstrip_cons c r Hc). apply rstrip_rstrip.
Qed.

(** X12: Every tag of every request body that a run submits is in normal form:
    it holds no comma and stripping it again changes nothing, so it has no
    whitespace at either end. *)
Theorem submitted_tags_are_stripped output options args st path body tag :
  log st = [] ->
  Upload path body ∈ log (snd (run_main env output options args st)) ->
  tag ∈ snippet_tags (body_snippet body) ->
  Py.strip tag = tag /\ Py.count "," tag = 0.
Proof.
  intros Hst H Htag.
  destruct (run_upload_body env _ _ _ _ _ _ Hst H) as (j & _ & _ & Ht & _).
  rewrite Ht in Htag. unfold tag_list in Htag.
  apply list_elem_of_fmap in Htag as (w & -> & Hw).
  split; [apply strip_strip|].
  pose proof (split_pieces "," (Py.or_else (tags options) "")) as Hall.
  rewrite Forall_forall in Hall. specialize (Hall w Hw).
  unfold Py.strip. now apply count_rstrip, count_lstrip.
Qed.

(** *** Titles under the default template *)

Lemma string_length_app (a b : string) :
  String.length (a +:+ b) = String.length a + String.length b.
Proof.
  induction a as [|c a IH]; [reflexivity|].
  rewrite append_cons. cbn [String.length]. now rewrite IH.
Qed.

Lemma string_app_cancel_r (a b r : string) : a +:+ r = b +:+ r -> a = b.
Proof.
  revert b. induction a as [|c a IH]; intros [|d b] H.
  - reflexivity.
  - apply (f_equal String.length) in H.
    rewrite !string_length_app in H. cbn [String.length] in H. lia.
  - apply (f_equal String.length) in H.
    rewrite !string_length_app in H. cbn [String.length] in H. lia.
  - rewrite !append_cons in H. injection H as -> H. f_equal. now apply IH.
Qed.

Lemma to_uint_not_nil n : Nat.to_uint n <> Nil.
Proof.
  rewrite <- (DecimalNat.Unsigned.of_to n) at 1.
  rewrite DecimalNat.Unsigned.to_of. unfold unorm.
  destruct (nzhead (Nat.to_uint n)); discriminate.
Qed.

Lemma str_of_nat_inj n m : Py.str_of_nat n = Py.str_of_nat m -> n = m.
Proof.
  unfold Py.str_of_nat. intros H.
  apply (f_equal NilZero.uint_of_string) in H.
  rewrite !NilZero.usu in H by apply to_uint_not_nil.
  injection H as H. now apply DecimalNat.Unsigned.to_uint_inj.
Qed.

(** X13: With the default title template and more than one file, the title of
    the file at index [i] is the title followed by [ [i+1/N]], and two
    files of the batch never get the same title. *)
Theorem default_titles_are_distinct options t total_videos i j :
  title options = Some t ->
  title_template options = "{title} [{n}/{total}]"%string ->
  1 < total_videos ->
  complete_title env options total_videos i
  = Ok (default_title (to_utf8 env t) i total_videos)
  /\ (complete_title env options total_videos i
      = complete_title env options total_videos j -> i = j).
Proof.
  intros Ht Htpl HN.
  assert (forall k, complete_title env options total_videos k
                    = Ok (default_title (to_utf8 env t) k total_videos))
    as Hk.
  { intros k. unfold complete_title. rewrite Ht, Htpl.
    apply Nat.ltb_lt in HN. rewrite HN.
    assert (Py.or_else (Some t) "" = t) as ->.
    { simpl. now destruct (String.eqb_spec t ""). }
    apply (format_template (format_other_field env)
             {| ns_title := to_utf8 env t; ns_n := k + 1;
                ns_total := total_videos |}
             [TitleField; Text " ["; NField; Text "/"; TotalField; Text "]"]).
    reflexivity. }
  split; [apply Hk|]. rewrite !Hk. intros [= H].
  unfold default_title in H.
  apply (inj (String.app _)) in H. apply (inj (String.app _)) in H.
  apply string_app_cancel_r, str_of_nat_inj in H. lia.
Qed.

(** X14: An empty [--title=] counts as missing, like an absent one: the usage
    is printed, [OptionsMissing] is raised, and the world is untouched. *)
Theorem empty_title_is_missing output options args st :
  title options = Some ""%string ->
  run_main env output options args st
  = (Raise (Exception OptionsMissing
              "Some required option are missing: title"),
     {| world := world st; log := log st ++ [PrintUsage]; bar := bar st |}).
Proof.
  intros Ht. unfold run_main. rewrite missing_options_title, Ht.
  reflexivity.
Qed.

End MoreFacts.

(** *** Concrete runs *)

Lemma submitted_category_and_privacy_witness :
  status_privacyStatus (sample_body "Holiday") = "public"%string
  /\ exists name id,
       category sample_options = Some name /\ name <> ""%string
       /\ IDS sample_env !! name = Some id
       /\ "10"%string = Py.str_of_nat id.
Proof.
  apply (submitted_category_and_privacy sample_env Stdout sample_options
           ["a.avi"%string] sample_state "a.avi" (sample_body "Holiday")).
  - reflexivity.
  - apply list_elem_of_lookup. exists 3. vm_compute. reflexivity.
Defined.

Lemma no_resource_no_upload_witness :
  run_main no_resource_env Stdout sample_options ["a.avi"%string] sample_state
  = (Raise (Exception AuthenticationError "Cannot get youtube resource"),
     {| world := tt;
        log := [GetResource (first_request no_resource_env sample_options tt)];
        bar := bar sample_state |}).
Proof.
  apply (no_resource_no_upload no_resource_env Stdout sample_options
           ["a.avi"%string] sample_state).
  - reflexivity.
  - intros youtube. discriminate.
Defined.

Lemma authenticates_once_first_witness :
  exists l,
    log (snd (run_main sample_env Stdout sample_options
                ["a.avi"%string; "b.avi"%string] sample_state))
    = log sample_state
      ++ GetResource (first_request sample_env sample_options
                        (world sample_state)) :: l
    /\ Forall (fun e => upload_phase_event e = true) l.
Proof.
  apply (authenticates_once_first sample_env Stdout sample_options
           ["a.avi"%string; "b.avi"%string] sample_state).
  reflexivity.
Defined.

Lemma bar_starts_once_witness :
  log (snd (run_callbacks (bar_callback sample_env)
              [(100, 50); (100, 100)]%Z
              (snd (get_progress_info sample_env "progressbar"
                      sample_state))))
  = [ProgressCallback 100 50; ProgressBarCall (BarStart 100);
     ProgressBarCall (BarUpdate 50);
     ProgressCallback 100 100; ProgressBarCall (BarUpdate 100)].
Proof.
  apply (bar_starts_once sample_env sample_state 100 50 [(100, 100)]%Z).
  - reflexivity.
  - reflexivity.
  - intros m w. reflexivity.
Defined.

Lemma console_reports_until_zero_witness :
  run_callbacks (console_callback sample_env)
    ([(100, 50)] ++ (0, 7) :: [(100, 100)])%Z sample_state
  = (Raise (Exception ZeroDivisionError "float division by zero"),
     {| world := tt;
        log := [ProgressCallback 100 50;
                Write Stdout (format_percent sample_env 100 50);
                Flush Stdout; ProgressCallback 0 7];
        bar := bar sample_state |}).
Proof.
  apply (console_reports_until_zero sample_env [(100, 50)]%Z sample_state).
  - repeat constructor; [discriminate | vm_compute; reflexivity ..].
  - vm_compute. reflexivity.
Defined.

Lemma default_titles_are_distinct_witness :
  complete_title sample_env sample_options 3 1 = Ok "Holiday [2/3]"%string.
Proof.
  apply (default_titles_are_distinct sample_env sample_options "Holiday" 3 1 1).
  - reflexivity.
  - reflexivity.
  - lia.
Defined.

Lemma empty_title_is_missing_witness :
  raised (fst (run_main sample_env Stdout empty_title ["a.avi"%string]
                 sample_state)) = Some OptionsMissing.
Proof.
  rewrite (empty_title_is_missing sample_env Stdout empty_title
             ["a.avi"%string] sample_state eq_refl).
  reflexivity.
Defined.

Lemma submitted_tags_are_stripped_witness :
  Py.strip "b" = "b"%string /\ Py.count "," "b" = 0.
Proof.
  apply (submitted_tags_are_stripped sample_env Stdout sample_options
           ["a.avi"%string] sample_state "a.avi" (sample_body "Holiday") "b").
  - reflexivity.
  - apply list_elem_of_lookup. exists 3. vm_compute. reflexivity.
  - apply list_elem_of_lookup. exists 1. reflexivity.
Defined.
